(** * tcc: the Thursday checker

    A shallow embedding of the parsing core of [tcc.py]: the classes
    [Feedback] and [Report], the line loop of [Report.parse] and the
    accession retrofit that closes it.

    Text is modelled as [string]: the file is opened with the latin1
    encoding, so every character of a line is one code point below 256,
    that is one [ascii].  Python integers are [Z].  The methods mutate the
    [Report] instance, the [Feedback] objects it holds and the class-level
    counter [Feedback._ids]; they are embedded in a state and exception
    monad over a [World] that holds the three.  An exception leaves the
    world as it was when it was raised, as in Python. *)

From Stdlib Require Import String Ascii List ZArith Lia Bool Arith.
Import ListNotations.

#[local] Open Scope string_scope.
#[local] Open Scope Z_scope.

(** ** Python strings *)

Module Py.

(** The newline character, and the one-character string ["\n"]. *)
Definition nl_char : ascii := ascii_of_nat 10.
Definition nl : string := String nl_char EmptyString.

(** [str.isspace] on the code points below 256. *)
Definition isspace (c : ascii) : bool :=
  let n := nat_of_ascii c in
  ((9 <=? n) && (n <=? 13) || (28 <=? n) && (n <=? 32)
   || (n =? 133) || (n =? 160))%nat.

Fixpoint lstrip (s : string) : string :=
  match s with
  | EmptyString => EmptyString
  | String c s' => if isspace c then lstrip s' else s
  end.

Fixpoint rstrip (s : string) : string :=
  match s with
  | EmptyString => EmptyString
  | String c s' =>
      match rstrip s' with
      | EmptyString => if isspace c then EmptyString else String c EmptyString
      | r => String c r
      end
  end.

(** [s.strip()] *)
Definition strip (s : string) : string := rstrip (lstrip s).

(** [s.startswith(p)] *)
Fixpoint startswith (s p : string) {struct p} : bool :=
  match p, s with
  | EmptyString, _ => true
  | String c p', String d s' => Ascii.eqb d c && startswith s' p'
  | String _ _, EmptyString => false
  end.

(** [s[n:]] for [n >= 0] *)
Fixpoint drop (n : nat) (s : string) : string :=
  match n, s with
  | O, _ => s
  | S n', String _ s' => drop n' s'
  | S _, EmptyString => EmptyString
  end.

(** [s.split(sep)] for a one-character separator; never the empty list. *)
Fixpoint split (sep : ascii) (s : string) : list string :=
  match s with
  | EmptyString => [EmptyString]
  | String c s' =>
      if Ascii.eqb c sep then EmptyString :: split sep s'
      else match split sep s' with
           | h :: t => String c h :: t
           | [] => [String c EmptyString]
           end
  end.

(** [sep.join(ls)] *)
Definition join (sep : string) (ls : list string) : string :=
  String.concat sep ls.

(** Normalisation of a slice bound against a length, as [PySlice_AdjustIndices]
    does for step 1. *)
Definition norm_index (len i : Z) : Z :=
  if i <? 0 then Z.max 0 (i + len) else Z.min i len.

(** [l[a:b]] *)
Definition slice {A : Type} (l : list A) (a b : Z) : list A :=
  let n := Z.of_nat (List.length l) in
  let a' := norm_index n a in
  let b' := norm_index n b in
  firstn (Z.to_nat (b' - a')) (skipn (Z.to_nat a') l).

End Py.

(** ** The fragment of [re] the two patterns use

    A pattern is a sequence of pieces; a piece is a literal character or a
    bracketed class, optionally followed by [?].  [match_here] is the
    backtracking matcher anchored at the head of the text ([re.match]);
    [search] tries every start position from the left ([re.search]).  Both
    return [group(0)]. *)

Module Re.

Inductive class_item : Type :=
| Range (lo hi : ascii)
| Single (c : ascii).

Inductive atom : Type :=
| Lit (c : ascii)
| Class (items : list class_item).

Record piece : Type := { what : atom; optional : bool }.

Definition one (a : atom) : piece := {| what := a; optional := false |}.
Definition opt (a : atom) : piece := {| what := a; optional := true |}.

Definition in_item (c : ascii) (i : class_item) : bool :=
  match i with
  | Range lo hi =>
      ((nat_of_ascii lo <=? nat_of_ascii c)
       && (nat_of_ascii c <=? nat_of_ascii hi))%nat
  | Single x => Ascii.eqb c x
  end.

Definition accepts (a : atom) (c : ascii) : bool :=
  match a with
  | Lit x => Ascii.eqb c x
  | Class items => existsb (in_item c) items
  end.

Fixpoint match_here (re : list piece) (s : string) : option string :=
  match re with
  | [] => Some EmptyString
  | p :: re' =>
      let taken :=
        match s with
        | String c s' =>
            if accepts (what p) c
            then option_map (String c) (match_here re' s')
            else None
        | EmptyString => None
        end in
      if optional p
      then match taken with
           | Some m => Some m
           | None => match_here re' s
           end
      else taken
  end.

Fixpoint search (re : list piece) (s : string) : option string :=
  match match_here re s with
  | Some m => Some m
  | None =>
      match s with
      | EmptyString => None
      | String _ s' => search re s'
      end
  end.

End Re.

(** ** Exceptions and the monad of the methods *)

Inductive exn : Type := IndexError | ValueError.

Inductive result (A : Type) : Type :=
| Ok (a : A)
| Raise (e : exn).
Arguments Ok {A} a.
Arguments Raise {A} e.

(** class Feedback: [feedback] and [context] are the values of the two
    StringIO buffers, which are only ever written to at their end. *)
Record Feedback : Type := {
  id : Z;
  feedback : string;
  context : string;
  ac : option string;
  tag : option string
}.

(** class Report, without [file] (the display name, which no line of the
    parsing loop reads) and with the two compiled patterns as constants
    below. *)
Record Report : Type := {
  scanner : list string;
  current_entry : option string;
  current_context : Z;
  all_accessions : list (option string);
  all_feedback : list Feedback
}.

(** What a run of [parse] can touch: the counter [Feedback._ids], which
    belongs to the class and so to the process; the [Report] instance; and
    the local variable [fb_block] of [parse]. *)
Record World : Type := {
  Feedback_ids : Z;
  self : Report;
  fb_block : bool
}.

Definition M (A : Type) : Type := World -> result A * World.

Definition ret {A : Type} (a : A) : M A := fun w => (Ok a, w).
Definition raise {A : Type} (e : exn) : M A := fun w => (Raise e, w).
Definition bind {A B : Type} (m : M A) (k : A -> M B) : M B :=
  fun w =>
    match m w with
    | (Ok a, w') => k a w'
    | (Raise e, w') => (Raise e, w')
    end.

Notation "x <- m ;; k" := (bind m (fun x => k))
  (at level 61, m at next level, right associativity).
Notation "m ;; k" := (bind m (fun _ => k))
  (at level 61, right associativity).

Definition get_self : M Report := fun w => (Ok (self w), w).
Definition put_self (r : Report) : M unit :=
  fun w => (Ok tt, {| Feedback_ids := Feedback_ids w; self := r;
                      fb_block := fb_block w |}).
Definition get_fb_block : M bool := fun w => (Ok (fb_block w), w).
Definition put_fb_block (b : bool) : M unit :=
  fun w => (Ok tt, {| Feedback_ids := Feedback_ids w; self := self w;
                      fb_block := b |}).
(** [next(self._ids)] *)
Definition next_id : M Z :=
  fun w => (Ok (Feedback_ids w),
            {| Feedback_ids := Feedback_ids w + 1; self := self w;
               fb_block := fb_block w |}).

(** [try: m except IndexError: h] *)
Definition try_IndexError {A : Type} (m h : M A) : M A :=
  fun w =>
    match m w with
    | (Raise IndexError, w') => h w'
    | r => r
    end.

(** ** Field updates *)

Definition with_scanner (v : list string) (r : Report) : Report :=
  {| scanner := v; current_entry := current_entry r;
     current_context := current_context r;
     all_accessions := all_accessions r; all_feedback := all_feedback r |}.
Definition with_current_entry (v : option string) (r : Report) : Report :=
  {| scanner := scanner r; current_entry := v;
     current_context := current_context r;
     all_accessions := all_accessions r; all_feedback := all_feedback r |}.
Definition with_current_context (v : Z) (r : Report) : Report :=
  {| scanner := scanner r; current_entry := current_entry r;
     current_context := v;
     all_accessions := all_accessions r; all_feedback := all_feedback r |}.
Definition with_all_accessions (v : list (option string)) (r : Report)
  : Report :=
  {| scanner := scanner r; current_entry := current_entry r;
     current_context := current_context r;
     all_accessions := v; all_feedback := all_feedback r |}.
Definition with_all_feedback (v : list Feedback) (r : Report) : Report :=
  {| scanner := scanner r; current_entry := current_entry r;
     current_context := current_context r;
     all_accessions := all_accessions r; all_feedback := v |}.

Definition with_feedback (v : string) (fb : Feedback) : Feedback :=
  {| id := id fb; feedback := v; context := context fb; ac := ac fb;
     tag := tag fb |}.
Definition with_context (v : string) (fb : Feedback) : Feedback :=
  {| id := id fb; feedback := feedback fb; context := v; ac := ac fb;
     tag := tag fb |}.
Definition with_ac (v : option string) (fb : Feedback) : Feedback :=
  {| id := id fb; feedback := feedback fb; context := context fb; ac := v;
     tag := tag fb |}.

(** [self.f = v] and friends, inside the monad. *)
Definition modify_self (f : Report -> Report) : M unit :=
  r <- get_self ;; put_self (f r).

(** ** Python lists and one-character conversions, with their exceptions *)

(** [l[i]] for [i >= 0] *)
Definition list_get {A : Type} (l : list A) (i : nat) : M A :=
  match nth_error l i with
  | Some x => ret x
  | None => raise IndexError
  end.

(** [l[-1]] *)
Definition list_last {A : Type} (l : list A) : M A :=
  match rev l with
  | x :: _ => ret x
  | [] => raise IndexError
  end.

(** [s[i]] for [i >= 0] *)
Definition str_get (s : string) (i : nat) : M ascii :=
  match String.get i s with
  | Some c => ret c
  | None => raise IndexError
  end.

Definition is_digit (c : ascii) : bool :=
  ((48 <=? nat_of_ascii c) && (nat_of_ascii c <=? 57))%nat.

(** [int(c)] for a one-character string: below 256 only the ten ASCII
    digits are decimal digits. *)
Definition int_of_char (c : ascii) : M Z :=
  if is_digit c then ret (Z.of_nat (nat_of_ascii c) - 48)
  else raise ValueError.

(** Apply [f] to the element at position [i]; the list is unchanged when
    there is none. *)
Fixpoint alter {A : Type} (f : A -> A) (i : nat) (l : list A) : list A :=
  match l, i with
  | [], _ => []
  | x :: l', O => f x :: l'
  | x :: l', S i' => x :: alter f i' l'
  end.

(** [for x in l: body(x)] over a list that the body does not resize. *)
Fixpoint for_each {A : Type} (l : list A) (body : A -> M unit) : M unit :=
  match l with
  | [] => ret tt
  | x :: l' => body x ;; for_each l' body
  end.

(** ** class Feedback

    The [Feedback] objects live in [self.all_feedback] from the moment they
    are built, are never removed and never reordered.  A reference to one is
    modelled by its position in that list, and a mutation through the
    reference by [alter] at that position. *)

Definition ref : Type := nat.

Definition mutate (fb : ref) (f : Feedback -> Feedback) : M unit :=
  modify_self (fun r => with_all_feedback (alter f fb (all_feedback r)) r).

(** [Feedback.__init__]: the two buffers start empty ([StringIO(None)]). *)
Definition Feedback_init (a : option string) : M Feedback :=
  i <- next_id ;;
  ret {| id := i; feedback := EmptyString; context := EmptyString;
         ac := a; tag := None |}.

Definition add_feedback (fb : ref) (aString : string) : M unit :=
  let out := Py.strip (Py.drop 2 aString) ++ " " in
  mutate fb (fun o => with_feedback (feedback o ++ out) o).

Definition add_context (fb : ref) (aString : string) : M unit :=
  mutate fb (fun o => with_context (context o ++ aString) o).

(** ** class Report *)

(** [re.compile("#[0-9][0-9]?")] *)
Definition context_regex : list Re.piece :=
  [ Re.one (Re.Lit "#");
    Re.one (Re.Class [Re.Range "0" "9"]);
    Re.opt (Re.Class [Re.Range "0" "9"]) ]%char.

(** [re.compile("[A-Z][0-9][A-Z,0-9][A-Z,0-9][A-Z,0-9][0-9]")] *)
Definition ac_regex : list Re.piece :=
  [ Re.one (Re.Class [Re.Range "A" "Z"]);
    Re.one (Re.Class [Re.Range "0" "9"]);
    Re.one (Re.Class [Re.Range "A" "Z"; Re.Single ","; Re.Range "0" "9"]);
    Re.one (Re.Class [Re.Range "A" "Z"; Re.Single ","; Re.Range "0" "9"]);
    Re.one (Re.Class [Re.Range "A" "Z"; Re.Single ","; Re.Range "0" "9"]);
    Re.one (Re.Class [Re.Range "0" "9"]) ]%char.

(** [Report.__init__] *)
Definition Report_init : Report :=
  {| scanner := []; current_entry := None; current_context := 1;
     all_accessions := []; all_feedback := [] |}.

(** [deque(maxlen = 10).append]: a full deque drops its leftmost entry. *)
Definition maxlen : nat := 10.
Definition deque_append (d : list string) (x : string) : list string :=
  if (maxlen <=? List.length d)%nat then tl d ++ [x] else d ++ [x].

(** [__generate_feedback]: the new object goes to the end of the list, so
    the reference returned is the length of the list before. *)
Definition generate_feedback (a : option string) : M ref :=
  fb <- Feedback_init a ;;
  r <- get_self ;;
  put_self (with_all_feedback (all_feedback r ++ [fb]) r) ;;
  ret (List.length (all_feedback r)).

(** [__get_current_feedback]: [self.all_feedback[-1]], the reference to the
    last object, IndexError on an empty list. *)
Definition get_current_feedback : M ref :=
  r <- get_self ;;
  list_last (seq 0 (List.length (all_feedback r))).

Definition check_for_context (aString : string) : M unit :=
  match Re.search context_regex aString with
  | Some m =>
      if (String.length m <? 3)%nat then
        c <- str_get m 1 ;;
        v <- int_of_char c ;;
        modify_self (with_current_context v)
      else if (String.length m =? 3)%nat then
        modify_self (with_current_context 9)
      else ret tt
  | None => ret tt
  end.

(** The slice of the scanner that [__extract_context] joins. *)
Definition context_slice (r : Report) : list string :=
  let lines_of_context := Z.of_nat (List.length (scanner r)) in
  let end_idx := lines_of_context - 1 in
  let start_idx := end_idx - current_context r in
  let d_list := scanner r in
  if 0 <=? start_idx then Py.slice d_list start_idx end_idx
  else Py.slice d_list 0 end_idx.

Definition extract_context : M string :=
  r <- get_self ;;
  ret (Py.join Py.nl (context_slice r)).

Definition provide_context (line : string) (feedback_instance : ref)
  : M unit :=
  check_for_context line ;;
  c <- extract_context ;;
  add_context feedback_instance c.

Definition reset_current_context : M unit :=
  modify_self (with_current_context 1).

Definition reset : M unit :=
  reset_current_context ;;
  modify_self (fun r =>
    with_all_accessions (all_accessions r ++ [current_entry r]) r) ;;
  modify_self (with_current_entry None) ;;
  modify_self (with_scanner []).

(** The body of the [for line in f] loop of [parse]. *)
Definition parse_line (line : string) : M unit :=
  modify_self (fun r =>
    with_scanner (deque_append (scanner r) (Py.strip line)) r) ;;
  let ac_match := Re.match_here ac_regex line in
  if Py.startswith line "AC " then
    put_fb_block false ;;
    let acc := Py.split ";" (Py.drop 5 line) in
    a <- list_get acc 0 ;;
    modify_self (with_current_entry (Some a))
  else if Py.startswith line "AC:" then
    ret tt
  else match ac_match with
  | Some g =>
      r <- get_self ;;
      match current_entry r with
      | None => modify_self (with_current_entry (Some g))
      | Some _ => ret tt
      end
  | None =>
      if Py.startswith line "##" then
        b <- get_fb_block ;;
        if negb b then
          put_fb_block true ;;
          r <- get_self ;;
          fb <- generate_feedback (current_entry r) ;;
          reset_current_context ;;
          provide_context line fb ;;
          add_feedback fb line
        else
          fb <- get_current_feedback ;;
          add_feedback fb line
      else if Py.startswith line "//" then
        reset ;;
        put_fb_block false
      else
        put_fb_block false
  end.

(** One turn of the loop of [__retrofit_ACs], for the object [fb] that the
    iterator yields at position [i].  [self.all_feedback.index(fb)] compares
    with [==], which is object identity for [Feedback] (the class defines no
    [__eq__]), so it returns the position of [fb] itself.  The handler runs
    outside the [try]: an IndexError of [all_accessions[-1]] leaves the
    method. *)
Definition retrofit_one (i : nat) : M unit :=
  r <- get_self ;;
  fb <- list_get (all_feedback r) i ;;
  match ac fb with
  | None =>
      try_IndexError
        (let fb_idx := i in
         nxt <- list_get (all_feedback r) (fb_idx + 1) ;;
         mutate i (with_ac (ac nxt)))
        (r' <- get_self ;;
         a <- list_last (all_accessions r') ;;
         mutate i (with_ac a))
  | Some _ => ret tt
  end.

Definition retrofit_ACs : M unit :=
  r <- get_self ;;
  for_each (seq 0 (List.length (all_feedback r))) retrofit_one.

(** [Report.parse], from the lines the opened file yields. *)
Definition parse (f : list string) : M unit :=
  put_fb_block false ;;
  for_each f parse_line ;;
  retrofit_ACs.

(** The lines of the loop alone, without the retrofit. *)
Definition scan (f : list string) : M unit :=
  put_fb_block false ;;
  for_each f parse_line.

(** A process whose counter stands at [ids], with [rep = Report()]. *)
Definition fresh (ids : Z) : World :=
  {| Feedback_ids := ids; self := Report_init; fb_block := false |}.

Definition ln (s : string) : string := s ++ Py.nl.

(** ** Views used to state the properties *)

(** The branch of the [if]/[elif] chain of [parse] that a line takes. *)
Inductive line_class : Type :=
| RecordStart
| LogfileAC
| SecondaryId (g : string)
| Marker
| RecordEnd
| Other.

Definition classify (line : string) : line_class :=
  if Py.startswith line "AC " then RecordStart
  else if Py.startswith line "AC:" then LogfileAC
  else match Re.match_here ac_regex line with
  | Some g => SecondaryId g
  | None =>
      if Py.startswith line "##" then Marker
      else if Py.startswith line "//" then RecordEnd
      else Other
  end.

Definition is_record_end (line : string) : bool :=
  match classify line with RecordEnd => true | _ => false end.

(** The number of lines of [f] that follow its last record-end line (all
    of them when it has none): a count that every line increments and
    every record-end line puts back to zero. *)
Definition lines_since_record_end (f : list string) : nat :=
  fold_left (fun n line => if is_record_end line then O else S n) f O.

Definition starts_with_digit (s : string) : bool :=
  match s with
  | String d _ => is_digit d
  | EmptyString => false
  end.

(** No ['#'] of [s] is immediately followed by a digit. *)
Fixpoint directive_free (s : string) : bool :=
  match s with
  | EmptyString => true
  | String c s' =>
      negb (Ascii.eqb c "#" && starts_with_digit s') && directive_free s'
  end.

Definition digit_value (d : ascii) : Z := Z.of_nat (nat_of_ascii d) - 48.

Definition is_upper (c : ascii) : bool :=
  ((65 <=? nat_of_ascii c) && (nat_of_ascii c <=? 90))%nat.
Definition is_lower (c : ascii) : bool :=
  ((97 <=? nat_of_ascii c) && (nat_of_ascii c <=? 122))%nat.
Definition is_upper_or_digit (c : ascii) : bool := is_upper c || is_digit c.

(** The shape of an accession as the pattern is meant: an upper-case
    letter, a digit, three upper-case letters or digits, a digit, at the
    head of the line. *)
Definition accession_shape (line : string) : bool :=
  match line with
  | String a (String b (String c (String d (String e (String f _))))) =>
      is_upper a && is_digit b && is_upper_or_digit c
      && is_upper_or_digit d && is_upper_or_digit e && is_digit f
  | _ => false
  end.

(** The class [[A-Z,0-9]] as the pattern has it, comma included. *)
Definition ac_class (c : ascii) : bool :=
  is_upper c || Ascii.eqb c "," || is_digit c.

(** The first six characters of a line, when it has that many. *)
Definition head6 (line : string) : option string :=
  match line with
  | String a (String b (String c (String d (String e (String f _))))) =>
      Some (String a (String b (String c (String d (String e
             (String f EmptyString))))))
  | _ => None
  end.

(** Some character among the third, fourth and fifth is a comma. *)
Definition comma_in_middle (line : string) : bool :=
  match line with
  | String _ (String _ (String c (String d (String e _)))) =>
      Ascii.eqb c "," || Ascii.eqb d "," || Ascii.eqb e ","
  | _ => false
  end.

(** The secondary-identifier shape in the words of the specification: one
    upper-case letter, one digit, three alphanumeric characters, one
    digit. *)
Definition is_alnum (c : ascii) : bool :=
  is_upper c || is_lower c || is_digit c.
Definition spec_secondary_shape (line : string) : bool :=
  match line with
  | String a (String b (String c (String d (String e (String f _))))) =>
      is_upper a && is_digit b && is_alnum c && is_alnum d && is_alnum e
      && is_digit f
  | _ => false
  end.

(** A [Feedback] without its [id]. *)
Definition forget_id (fb : Feedback)
  : string * string * option string * option string :=
  (feedback fb, context fb, ac fb, tag fb).

(** Moving every [id] by [k]: what a different start of the counter does. *)
Definition shift_fb (k : Z) (fb : Feedback) : Feedback :=
  {| id := id fb + k; feedback := feedback fb; context := context fb;
     ac := ac fb; tag := tag fb |}.
Definition shift_report (k : Z) (r : Report) : Report :=
  with_all_feedback (map (shift_fb k) (all_feedback r)) r.
Definition shift_world (k : Z) (w : World) : World :=
  {| Feedback_ids := Feedback_ids w + k; self := shift_report k (self w);
     fb_block := fb_block w |}.

(** The report once the loop has pushed [line] on the scanner. *)
Definition pushed (line : string) (r : Report) : Report :=
  with_scanner (deque_append (scanner r) (Py.strip line)) r.

(** The context size that [__check_for_context] leaves after [line], from
    the size [default] before it. *)
Definition requested (line : string) (default : Z) : Z :=
  match Re.search context_regex line with
  | Some (String _ (String d EmptyString)) => digit_value d
  | Some _ => 9
  | None => default
  end.

(** The text that [add_feedback] writes for [line]. *)
Definition written (line : string) : string :=
  Py.strip (Py.drop 2 line) ++ " ".

(** The object that the first line of a block leaves in [all_feedback]. *)
Definition opened (line : string) (w : World) : Feedback :=
  {| id := Feedback_ids w;
     feedback := written line;
     context :=
       Py.join Py.nl
         (context_slice
            (with_current_context (requested line 1) (pushed line (self w))));
     ac := current_entry (self w);
     tag := None |}.

(** The loop keeps [fb_block] true only while an object is there to append
    to. *)
Definition block_open_ok (w : World) : Prop :=
  fb_block w = true -> all_feedback (self w) <> [].

(** The counter stands at [ids] plus the number of objects, and the
    objects carry the numbers from [ids] on, in order. *)
Definition ids_consecutive (ids : Z) (w : World) : Prop :=
  Feedback_ids w = ids + Z.of_nat (List.length (all_feedback (self w)))
  /\ map id (all_feedback (self w))
     = map (fun i => ids + Z.of_nat i)
         (seq 0 (List.length (all_feedback (self w)))).

(** A monadic action that does the same from a world whose [id]s are moved
    by [k], and leaves a world moved by [k]. *)
Definition invariant_under_shift {A : Type} (m : M A) : Prop :=
  forall (k : Z) (w : World),
    m (shift_world k w) = (fst (m w), shift_world k (snd (m w))).

(** What the retrofit may change between two worlds: the accessions of the
    objects, and nothing else. *)
Definition same_but_ac (w w' : World) : Prop :=
  Feedback_ids w' = Feedback_ids w
  /\ all_accessions (self w') = all_accessions (self w)
  /\ map (with_ac None) (all_feedback (self w'))
     = map (with_ac None) (all_feedback (self w)).

(** The context [c] is the one captured for the [i]-th object of the
    stream [f]: [f] splits at a marker line that the loop meets outside a
    block with [i] objects already there, [c] joins the slice that the line
    captures, and the slice is no longer than the context size after the
    line and than the number of lines between the last record end and the
    line. *)
Definition captured_at (ids : Z) (f : list string) (i : nat) (c : string)
  : Prop :=
  exists (before : list string) (line : string) (after : list string)
         (w0 : World),
    f = (before ++ line :: after)%list
    /\ scan before (fresh ids) = (Ok tt, w0)
    /\ classify line = Marker
    /\ fb_block w0 = false
    /\ List.length (all_feedback (self w0)) = i
    /\ c = Py.join Py.nl (context_slice (self (snd (parse_line line w0))))
    /\ Z.of_nat (List.length (context_slice (self (snd (parse_line line w0)))))
       <= current_context (self (snd (parse_line line w0)))
    /\ (List.length (context_slice (self (snd (parse_line line w0))))
        <= lines_since_record_end before)%nat.

(** The list that the retrofit loop leaves, as a function of the list it
    finds: an object without accession takes the accession that its
    immediate successor has in the list found, and the last object takes
    [fallback], the value of [all_accessions[-1]]. *)
Fixpoint retrofitted (fallback : option string) (l : list Feedback)
  : list Feedback :=
  match l with
  | [] => []
  | fb :: rest =>
      match ac fb, rest with
      | Some _, _ => fb
      | None, nxt :: _ => with_ac (ac nxt) fb
      | None, [] => with_ac fallback fb
      end :: retrofitted fallback rest
  end.

(** The last object of the list has no accession. *)
Fixpoint ends_unset (l : list Feedback) : bool :=
  match l with
  | [] => false
  | fb :: rest =>
      match rest with
      | [] => match ac fb with None => true | Some _ => false end
      | _ :: _ => ends_unset rest
      end
  end.

(** The outcome of the retrofit loop, from the accessions recorded at the
    record ends and the list of objects found. *)
Definition retrofit_outcome (accs : list (option string))
  (l : list Feedback) : result unit :=
  match rev accs with
  | [] => if ends_unset l then Raise IndexError else Ok tt
  | _ :: _ => Ok tt
  end.

Definition with_items (l : list Feedback) (w : World) : World :=
  {| Feedback_ids := Feedback_ids w; self := with_all_feedback l (self w);
     fb_block := fb_block w |}.

(** The last [n] elements of a list (all of it when it is shorter). *)
Definition lastn {A : Type} (n : nat) (l : list A) : list A :=
  skipn (List.length l - n) l.

(** The lines of [f] that follow its last record-end line, in order. *)
Definition since_record_end (f : list string) : list string :=
  fold_left
    (fun acc line => if is_record_end line then [] else (acc ++ [line])%list)
    f [].

Definition is_marker (line : string) : bool :=
  match classify line with Marker => true | _ => false end.

(** No character of [s] is a semicolon. *)
Fixpoint semicolon_free (s : string) : bool :=
  match s with
  | EmptyString => true
  | String c s' => negb (Ascii.eqb c ";") && semicolon_free s'
  end.

Definition is_set (fb : Feedback) : bool :=
  match ac fb with Some _ => true | None => false end.

(** No two neighbours of the list are both without accession. *)
Fixpoint no_adjacent_unset (l : list Feedback) : bool :=
  match l with
  | [] => true
  | fb :: rest =>
      match rest with
      | [] => true
      | nxt :: _ => (is_set fb || is_set nxt) && no_adjacent_unset rest
      end
  end.

(** [all_accessions[-1]] exists and is an accession. *)
Definition fallback_set (accs : list (option string)) : bool :=
  match rev accs with
  | Some _ :: _ => true
  | _ => false
  end.

(** Lines that neither set the current entry from an AC field nor end the
    record. *)
Definition keeps_entry (line : string) : bool :=
  match classify line with
  | RecordStart | RecordEnd => false
  | _ => true
  end.

(** The number of blocks that start in [f], for a loop that is inside a
    block or not: a block starts at a marker line met outside a block;
    record-start, record-end and other lines end the block; "AC:" lines and
    secondary identifier lines leave things as they are. *)
Fixpoint count_blocks (in_block : bool) (f : list string) : nat :=
  match f with
  | [] => O
  | line :: f' =>
      match classify line with
      | Marker => (if in_block then O else 1%nat) + count_blocks true f'
      | LogfileAC | SecondaryId _ => count_blocks in_block f'
      | RecordStart | RecordEnd | Other => count_blocks false f'
      end
  end.

(** The text that the lines of one block write, one after the other. *)
Definition block_text (ms : list string) : string :=
  String.concat EmptyString (map written ms).

(** A [Feedback] without its text. *)
Definition without_text (fb : Feedback) : Feedback :=
  with_feedback EmptyString fb.

(** ** Running the monad *)

Lemma split_nonempty (sep : ascii) (s : string) :
  exists h t, Py.split sep s = h :: t.
Proof.
  induction s as [|c s IH]; simpl.
  - eauto.
  - destruct (Ascii.eqb c sep); [eauto|].
    destruct (Py.split sep s); eauto.
Qed.

Ltac run_monad :=
  cbv [bind ret raise get_self put_self get_fb_block put_fb_block next_id
       modify_self mutate reset reset_current_context list_get].

(** The world after a line, branch by branch. *)
Lemma parse_line_RecordStart (line : string) (w : World) :
  classify line = RecordStart ->
  parse_line line w =
  (Ok tt,
   {| Feedback_ids := Feedback_ids w;
      self := with_current_entry
                (Some (hd EmptyString (Py.split ";" (Py.drop 5 line))))
                (pushed line (self w));
      fb_block := false |}).
Proof.
  unfold classify, parse_line. intros H.
  destruct (Py.startswith line "AC ").
  - destruct (split_nonempty ";" (Py.drop 5 line)) as (h & t & E).
    run_monad. rewrite E. reflexivity.
  - destruct (Py.startswith line "AC:"); [discriminate|].
    destruct (Re.match_here ac_regex line); [discriminate|].
    destruct (Py.startswith line "##"); [discriminate|].
    destruct (Py.startswith line "//"); discriminate.
Qed.

Ltac by_class H :=
  unfold classify, parse_line; intros H;
  destruct (Py.startswith _ "AC "); [discriminate|];
  destruct (Py.startswith _ "AC:"); [try discriminate|];
  [ .. | destruct (Re.match_here ac_regex _); [try discriminate|];
         [ .. | destruct (Py.startswith _ "##"); [try discriminate|];
                [ .. | destruct (Py.startswith _ "//"); try discriminate ] ] ].

Lemma parse_line_LogfileAC (line : string) (w : World) :
  classify line = LogfileAC ->
  parse_line line w =
  (Ok tt,
   {| Feedback_ids := Feedback_ids w; self := pushed line (self w);
      fb_block := fb_block w |}).
Proof. by_class H. reflexivity. Qed.

Lemma parse_line_SecondaryId (line g : string) (w : World) :
  classify line = SecondaryId g ->
  parse_line line w =
  (Ok tt,
   {| Feedback_ids := Feedback_ids w;
      self := match current_entry (self w) with
              | None => with_current_entry (Some g) (pushed line (self w))
              | Some _ => pushed line (self w)
              end;
      fb_block := fb_block w |}).
Proof.
  by_class H. injection H as ->. run_monad. simpl.
  destruct (current_entry (self w)); reflexivity.
Qed.

Lemma parse_line_RecordEnd (line : string) (w : World) :
  classify line = RecordEnd ->
  parse_line line w =
  (Ok tt,
   {| Feedback_ids := Feedback_ids w;
      self := {| scanner := []; current_entry := None; current_context := 1;
                 all_accessions :=
                   all_accessions (self w) ++ [current_entry (self w)];
                 all_feedback := all_feedback (self w) |};
      fb_block := false |}).
Proof. by_class H. reflexivity. Qed.

Lemma parse_line_Other (line : string) (w : World) :
  classify line = Other ->
  parse_line line w =
  (Ok tt,
   {| Feedback_ids := Feedback_ids w; self := pushed line (self w);
      fb_block := false |}).
Proof. by_class H. reflexivity. Qed.

(** ** The context directive *)

Lemma accepts_digit (c : ascii) :
  Re.accepts (Re.Class [Re.Range "0" "9"]%char) c = is_digit c.
Proof. unfold Re.accepts, is_digit; simpl. apply orb_false_r. Qed.

Lemma search_context_skip (c : ascii) (s : string) :
  Ascii.eqb c "#" && starts_with_digit s = false ->
  Re.search context_regex (String c s) = Re.search context_regex s.
Proof.
  intros H. unfold context_regex.
  cbn [Re.search Re.match_here Re.what Re.optional Re.one Re.opt].
  unfold Re.accepts at 1.
  destruct (Ascii.eqb c "#"); [|reflexivity].
  destruct s as [|d s]; [reflexivity|].
  rewrite accepts_digit. simpl in H. rewrite H. reflexivity.
Qed.

Lemma search_context_one (d : ascii) (s : string) :
  is_digit d = true -> starts_with_digit s = false ->
  Re.search context_regex (String "#" (String d s))
  = Some (String "#" (String d EmptyString)).
Proof.
  intros Hd Hs. unfold context_regex.
  cbn [Re.search Re.match_here Re.what Re.optional Re.one Re.opt].
  unfold Re.accepts at 1. rewrite Ascii.eqb_refl, !accepts_digit, Hd.
  destruct s as [|e s]; [reflexivity|].
  rewrite accepts_digit. simpl in Hs. rewrite Hs. reflexivity.
Qed.

Lemma search_context_two (d e : ascii) (s : string) :
  is_digit d = true -> is_digit e = true ->
  Re.search context_regex (String "#" (String d (String e s)))
  = Some (String "#" (String d (String e EmptyString))).
Proof.
  intros Hd He. unfold context_regex.
  cbn [Re.search Re.match_here Re.what Re.optional Re.one Re.opt].
  unfold Re.accepts at 1. rewrite Ascii.eqb_refl, !accepts_digit, Hd, He.
  reflexivity.
Qed.

(** Where the search stops: at the first ['#'] that a digit follows. *)
Lemma search_context_first (pre : string) (d : ascii) (rest : string) :
  directive_free pre = true -> is_digit d = true ->
  Re.search context_regex (pre ++ String "#" (String d rest))
  = Some (match rest with
          | String e _ =>
              if is_digit e
              then String "#" (String d (String e EmptyString))
              else String "#" (String d EmptyString)
          | EmptyString => String "#" (String d EmptyString)
          end).
Proof.
  intros Hpre Hd. induction pre as [|c pre IH].
  - cbn [String.append]. destruct rest as [|e rest].
    + now apply search_context_one.
    + destruct (is_digit e) eqn:He.
      * now apply search_context_two.
      * now apply search_context_one.
  - cbn [directive_free] in Hpre. apply andb_true_iff in Hpre as [Hc Hpre].
    cbn [String.append]. rewrite search_context_skip; [now apply IH|].
    apply negb_true_iff in Hc.
    destruct (Ascii.eqb c "#") eqn:Ec; [|reflexivity].
    destruct pre as [|c' pre]; cbn [String.append starts_with_digit andb] in *.
    + reflexivity.
    + exact Hc.
Qed.

Lemma search_context_none (s : string) :
  directive_free s = true -> Re.search context_regex s = None.
Proof.
  induction s as [|c s IH]; intros H.
  - reflexivity.
  - simpl in H. apply andb_true_iff in H as [Hc Hs].
    rewrite search_context_skip; [now apply IH|].
    now apply negb_true_iff.
Qed.

(** A line either has no directive or splits at its first one. *)
Lemma first_directive (s : string) :
  directive_free s = true \/
  exists pre d rest,
    s = pre ++ String "#" (String d rest) /\
    directive_free pre = true /\ is_digit d = true.
Proof.
  induction s as [|c s IH].
  - now left.
  - destruct (Ascii.eqb c "#" && starts_with_digit s) eqn:E.
    + right. apply andb_true_iff in E as [Ec Es].
      apply Ascii.eqb_eq in Ec. subst c.
      destruct s as [|d s]; [discriminate|].
      exists EmptyString, d, s. simpl in Es. auto.
    + destruct IH as [IH | (pre & d & rest & -> & Hpre & Hd)].
      * left. simpl. now rewrite E, IH.
      * right. exists (String c pre), d, rest. repeat split; auto.
        cbn [directive_free]. rewrite Hpre, andb_true_r.
        apply negb_true_iff.
        destruct (Ascii.eqb c "#"); [|reflexivity].
        destruct pre; cbn [String.append starts_with_digit andb] in *;
          [reflexivity|exact E].
Qed.

Lemma requested_none (line : string) (default : Z) :
  directive_free line = true -> requested line default = default.
Proof. intros H. unfold requested. now rewrite search_context_none. Qed.

Lemma requested_first (pre : string) (d : ascii) (rest : string)
  (default : Z) :
  directive_free pre = true -> is_digit d = true ->
  requested (pre ++ String "#" (String d rest)) default
  = if starts_with_digit rest then 9 else digit_value d.
Proof.
  intros Hpre Hd. unfold requested.
  rewrite search_context_first by assumption.
  destruct rest as [|e rest]; simpl; [reflexivity|].
  destruct (is_digit e); reflexivity.
Qed.

Lemma check_for_context_eq (line : string) (w : World) :
  check_for_context line w =
  (Ok tt,
   {| Feedback_ids := Feedback_ids w;
      self := with_current_context
                (requested line (current_context (self w))) (self w);
      fb_block := fb_block w |}).
Proof.
  unfold check_for_context, requested.
  destruct (first_directive line) as [H | (pre & d & rest & -> & Hpre & Hd)].
  - rewrite search_context_none by assumption.
    destruct w as [i [a b c e f] g]; reflexivity.
  - rewrite search_context_first by assumption.
    destruct rest as [|e rest]; [|destruct (is_digit e)]; simpl;
      run_monad; unfold str_get, int_of_char; simpl; rewrite ?Hd;
      reflexivity.
Qed.

(** ** The marker branch *)

Lemma alter_app_last {A : Type} (f : A -> A) (l : list A) (x : A) :
  alter f (List.length l) (l ++ [x])%list = (l ++ [f x])%list.
Proof. induction l as [|y l IH]; simpl; [reflexivity|now rewrite IH]. Qed.

Lemma alter_length {A : Type} (f : A -> A) (i : nat) (l : list A) :
  List.length (alter f i l) = List.length l.
Proof.
  revert i; induction l as [|y l IH]; intros [|i]; simpl; auto.
Qed.

Lemma parse_line_Marker_open (line : string) (w : World) :
  classify line = Marker -> fb_block w = false ->
  parse_line line w =
  (Ok tt,
   {| Feedback_ids := Feedback_ids w + 1;
      self := with_all_feedback
                (all_feedback (self w) ++ [opened line w])
                (with_current_context (requested line 1)
                   (pushed line (self w)));
      fb_block := true |}).
Proof.
  by_class H. intros Hb.
  unfold generate_feedback, Feedback_init, provide_context, extract_context,
    add_context, add_feedback.
  run_monad. cbn [fb_block self Feedback_ids]. rewrite Hb. cbn [negb].
  rewrite check_for_context_eq.
  cbn [self with_all_feedback with_current_context all_feedback scanner
       current_entry current_context all_accessions pushed with_scanner
       Feedback_ids fb_block].
  rewrite !alter_app_last. reflexivity.
Qed.

Lemma last_position (n : nat) (w : World) :
  list_last (seq 0 (S n)) w = (Ok n, w).
Proof.
  unfold list_last. rewrite seq_S, rev_app_distr. reflexivity.
Qed.

Lemma parse_line_Marker_cont (line : string) (w : World) :
  classify line = Marker -> fb_block w = true ->
  all_feedback (self w) <> [] ->
  parse_line line w =
  (Ok tt,
   {| Feedback_ids := Feedback_ids w;
      self := with_all_feedback
                (alter (fun o => with_feedback (feedback o ++ written line) o)
                   (List.length (all_feedback (self w)) - 1)
                   (all_feedback (self w)))
                (pushed line (self w));
      fb_block := true |}).
Proof.
  by_class H. intros Hb Hne.
  unfold get_current_feedback, add_feedback.
  run_monad. cbn [fb_block self Feedback_ids]. rewrite Hb. cbn [negb].
  cbn [self with_scanner all_feedback].
  destruct (all_feedback (self w)) as [|x l] eqn:E; [congruence|].
  cbn [List.length]. rewrite last_position.
  cbn [self with_scanner all_feedback fb_block Feedback_ids].
  rewrite E. cbn [List.length]. replace (S (List.length l) - 1)%nat
    with (List.length l) by lia. reflexivity.
Qed.

Lemma parse_line_Marker_orphan (line : string) (w : World) :
  classify line = Marker -> fb_block w = true ->
  all_feedback (self w) = [] ->
  parse_line line w =
  (Raise IndexError,
   {| Feedback_ids := Feedback_ids w; self := pushed line (self w);
      fb_block := true |}).
Proof.
  by_class H. intros Hb He.
  unfold get_current_feedback, add_feedback.
  run_monad. cbn [fb_block self Feedback_ids]. rewrite Hb. cbn [negb].
  cbn [self with_scanner all_feedback]. rewrite He. reflexivity.
Qed.

(** ** Loops *)

Lemma for_each_app {A : Type} (l1 l2 : list A) (body : A -> M unit)
  (w : World) :
  for_each (l1 ++ l2) body w =
  match for_each l1 body w with
  | (Ok _, w') => for_each l2 body w'
  | (Raise e, w') => (Raise e, w')
  end.
Proof.
  revert w. induction l1 as [|x l1 IH]; intros w; simpl.
  - reflexivity.
  - unfold bind. destruct (body x w) as [[[]|e] w1]; [apply IH|reflexivity].
Qed.

Lemma for_each_snoc {A : Type} (l : list A) (x : A) (body : A -> M unit)
  (w w' : World) :
  for_each l body w = (Ok tt, w') ->
  for_each (l ++ [x]) body w = body x w'.
Proof.
  intros H. rewrite for_each_app, H. simpl. unfold bind.
  destruct (body x w') as [[[]|e] w1]; reflexivity.
Qed.

Lemma scan_fresh (f : list string) (ids : Z) :
  scan f (fresh ids) = for_each f parse_line (fresh ids).
Proof. reflexivity. Qed.

Lemma parse_scan (f : list string) (w w' : World) :
  scan f w = (Ok tt, w') -> parse f w = retrofit_ACs w'.
Proof.
  unfold scan, parse, bind. intros H.
  destruct (put_fb_block false w) as [[[]|e] w0]; [|discriminate].
  now rewrite H.
Qed.

Lemma parse_line_ok (line : string) (w : World) :
  block_open_ok w ->
  exists w', parse_line line w = (Ok tt, w') /\ block_open_ok w'.
Proof.
  intros Hw. destruct (classify line) eqn:C.
  - eexists; split; [now apply parse_line_RecordStart|]. intros H; discriminate.
  - eexists; split; [now apply parse_line_LogfileAC|]. exact Hw.
  - eexists; split; [apply parse_line_SecondaryId, C|].
    unfold block_open_ok; cbn [fb_block self].
    destruct (current_entry (self w)); exact Hw.
  - destruct (fb_block w) eqn:B.
    + eexists; split; [apply parse_line_Marker_cont; auto|].
      unfold block_open_ok; cbn [fb_block self with_all_feedback all_feedback].
      intros _ E. apply (f_equal (@List.length _)) in E.
      rewrite alter_length in E. specialize (Hw B).
      destruct (all_feedback (self w)); [congruence|discriminate].
    + eexists; split; [now apply parse_line_Marker_open|].
      unfold block_open_ok; cbn [fb_block self with_all_feedback all_feedback].
      intros _ E. destruct (all_feedback (self w)); discriminate.
  - eexists; split; [now apply parse_line_RecordEnd|]. intros H; discriminate.
  - eexists; split; [now apply parse_line_Other|]. intros H; discriminate.
Qed.

Lemma for_each_parse_line_ok (f : list string) (w : World) :
  block_open_ok w ->
  exists w', for_each f parse_line w = (Ok tt, w') /\ block_open_ok w'.
Proof.
  revert w. induction f as [|line f IH]; intros w Hw.
  - exists w. split; [reflexivity|assumption].
  - destruct (parse_line_ok line w Hw) as (w1 & E1 & H1).
    destruct (IH w1 H1) as (w2 & E2 & H2).
    exists w2. split; [|assumption].
    simpl. unfold bind. now rewrite E1.
Qed.

Lemma scan_ok (f : list string) (ids : Z) :
  exists w', scan f (fresh ids) = (Ok tt, w') /\ block_open_ok w'.
Proof.
  rewrite scan_fresh. apply for_each_parse_line_ok.
  intros H; discriminate.
Qed.

(** * The properties *)

(** ** The worked example of an entry whose comment precedes its AC line *)

(** C1, as stated, does not hold: the five-line stream
    ["ID foo"; "XX"; "## note one"; "AC  P12345;"; "//"] does not yield an
    object whose text is "note one ", whose context is the two lines
    "ID foo" and "XX", and whose accession is "P12345". *)
Lemma C1_example_as_stated_fails :
  ~ exists fb,
      all_feedback
        (self (snd (parse [ln "ID foo"; ln "XX"; ln "## note one";
                           ln "AC  P12345;"; ln "//"] (fresh 0)))) = [fb]
      /\ feedback fb = "note one "
      /\ context fb = Py.join Py.nl ["ID foo"; "XX"]
      /\ ac fb = Some "P12345".
Proof.
  intros (fb & H & _ & Hc & _).
  vm_compute in H. injection H as <-. vm_compute in Hc. discriminate.
Qed.

(** C1, amended: from any value [ids] of the counter, the five-line stream
    parses without an exception into exactly one object, with text
    "note one ", with the single context line "XX" (no directive, so one
    line of context), and with the accession "12345" (the characters of the
    AC line from column 5 up to the first semicolon), put there by the
    retrofit from [all_accessions]. *)
Theorem C1_example_amended (ids : Z) :
  parse [ln "ID foo"; ln "XX"; ln "## note one"; ln "AC  P12345;"; ln "//"]
    (fresh ids)
  = (Ok tt,
     {| Feedback_ids := ids + 1;
        self := {| scanner := []; current_entry := None;
                   current_context := 1;
                   all_accessions := [Some "12345"];
                   all_feedback :=
                     [ {| id := ids; feedback := "note one ";
                          context := Py.join Py.nl ["XX"];
                          ac := Some "12345"; tag := None |} ] |};
        fb_block := false |})
  /\ all_feedback
       (self (snd (scan [ln "ID foo"; ln "XX"; ln "## note one";
                         ln "AC  P12345;"; ln "//"] (fresh ids))))
     = [ {| id := ids; feedback := "note one "; context := "XX";
           ac := None; tag := None |} ].
Proof. split; reflexivity. Qed.

(** ** The context directive on the first line of a block *)

Lemma digit_value_range (d : ascii) :
  is_digit d = true -> 0 <= digit_value d <= 9.
Proof.
  unfold is_digit, digit_value. intros H.
  apply andb_true_iff in H as [H1 H2].
  apply Nat.leb_le in H1, H2. lia.
Qed.

Lemma requested_range (line : string) (default : Z) :
  0 <= default <= 9 -> 0 <= requested line default <= 9.
Proof.
  intros H.
  destruct (first_directive line) as [F | (pre & d & rest & -> & Hpre & Hd)].
  - now rewrite requested_none.
  - rewrite requested_first by assumption.
    destruct (starts_with_digit rest); [lia|now apply digit_value_range].
Qed.

Lemma size_after_first_line (line : string) (w : World) :
  fb_block w = false -> classify line = Marker ->
  parse_line line w = (Ok tt, snd (parse_line line w))
  /\ current_context (self (snd (parse_line line w))) = requested line 1.
Proof.
  intros Hb C. rewrite (parse_line_Marker_open line w C Hb).
  split; reflexivity.
Qed.

(** C3: on the first line of a block (the loop is outside a block and the
    line starts with the marker), "## #5 text" leaves [current_context] at
    5, "## #12 text" at 9, "## text" at the default 1; and for every such
    line, a line without directive leaves 1, a line whose first directive
    is one digit [d] leaves the value of [d], which lies between 0 and 9,
    and a line whose first directive has two digits leaves 9 whatever the
    digits are. *)
Theorem C3_directive_sets_context_size (w : World) :
  fb_block w = false ->
  current_context (self (snd (parse_line (ln "## #5 text") w))) = 5
  /\ current_context (self (snd (parse_line (ln "## #12 text") w))) = 9
  /\ current_context (self (snd (parse_line (ln "## text") w))) = 1
  /\ forall line : string,
       classify line = Marker ->
       fst (parse_line line w) = Ok tt
       /\ (directive_free line = true ->
           current_context (self (snd (parse_line line w))) = 1)
       /\ (forall pre d rest,
             line = pre ++ String "#" (String d rest) ->
             directive_free pre = true -> is_digit d = true ->
             starts_with_digit rest = false ->
             current_context (self (snd (parse_line line w)))
             = digit_value d
             /\ 0 <= digit_value d <= 9)
       /\ (forall pre d e rest,
             line = pre ++ String "#" (String d (String e rest)) ->
             directive_free pre = true -> is_digit d = true ->
             is_digit e = true ->
             current_context (self (snd (parse_line line w))) = 9).
Proof.
  intros Hb.
  assert (G : forall line, classify line = Marker ->
              fst (parse_line line w) = Ok tt /\
              current_context (self (snd (parse_line line w)))
              = requested line 1).
  { intros line C. destruct (size_after_first_line line w Hb C) as [E ->].
    rewrite E. split; reflexivity. }
  split; [rewrite (proj2 (G (ln "## #5 text") eq_refl)); reflexivity|].
  split; [rewrite (proj2 (G (ln "## #12 text") eq_refl)); reflexivity|].
  split; [rewrite (proj2 (G (ln "## text") eq_refl)); reflexivity|].
  intros line C. destruct (G line C) as [E1 E2]. rewrite E2.
  split; [exact E1|]. split; [|split].
  - now apply requested_none.
  - intros pre d rest -> Hpre Hd Hrest.
    rewrite requested_first, Hrest by assumption.
    split; [reflexivity|now apply digit_value_range].
  - intros pre d e rest -> Hpre Hd He.
    rewrite requested_first by assumption.
    cbn [starts_with_digit]. now rewrite He.
Qed.

Lemma C3_directive_sets_context_size_witness :
  fb_block (fresh 0) = false
  /\ current_context (self (snd (parse_line (ln "## #5 text") (fresh 0)))) = 5
  /\ classify (ln "##   #7 seven") = Marker
  /\ directive_free "##   " = true
  /\ is_digit "7" = true
  /\ starts_with_digit (ln " seven") = false
  /\ current_context (self (snd (parse_line (ln "##   #7 seven") (fresh 0))))
     = digit_value "7".
Proof.
  pose proof (C3_directive_sets_context_size (fresh 0) eq_refl)
    as (H5 & _ & _ & G).
  destruct (G (ln "##   #7 seven") eq_refl) as (_ & _ & G1 & _).
  destruct (G1 "##   " "7"%char (ln " seven") eq_refl eq_refl eq_refl eq_refl)
    as [E _].
  repeat split; assumption.
Defined.

(** C10: the directive is the first ['#'] of the first line of a block that
    a digit follows, wherever it stands.  A first line either has no such
    place and leaves the size at 1, or splits at the first one into [pre],
    ['#'], a digit [d] and [rest], and then leaves 9 when [rest] starts with
    a digit and the value of [d] otherwise.  So "##5 note" leaves 5, the
    second ['#'] of the marker opening the directive, and "## fix bug #42"
    leaves 9. *)
Theorem C10_directive_is_first_hash_digit (w : World) :
  fb_block w = false ->
  current_context (self (snd (parse_line (ln "##5 note") w))) = 5
  /\ current_context (self (snd (parse_line (ln "## fix bug #42") w))) = 9
  /\ forall line : string,
       classify line = Marker ->
       (directive_free line = true
        /\ current_context (self (snd (parse_line line w))) = 1)
       \/ (exists pre d rest,
             line = pre ++ String "#" (String d rest)
             /\ directive_free pre = true /\ is_digit d = true
             /\ current_context (self (snd (parse_line line w)))
                = if starts_with_digit rest then 9 else digit_value d).
Proof.
  intros Hb.
  assert (G : forall line, classify line = Marker ->
              current_context (self (snd (parse_line line w)))
              = requested line 1).
  { intros line C. apply (size_after_first_line line w Hb C). }
  split; [rewrite (G (ln "##5 note") eq_refl); reflexivity|].
  split; [rewrite (G (ln "## fix bug #42") eq_refl); reflexivity|].
  intros line C. rewrite (G _ C).
  destruct (first_directive line) as [F | (pre & d & rest & -> & Hpre & Hd)].
  - left. split; [assumption|now apply requested_none].
  - right. exists pre, d, rest. repeat split; try assumption.
    now apply requested_first.
Qed.

Lemma C10_directive_is_first_hash_digit_witness :
  fb_block (fresh 0) = false
  /\ current_context (self (snd (parse_line (ln "##5 note") (fresh 0)))) = 5
  /\ current_context
       (self (snd (parse_line (ln "## fix bug #42") (fresh 0)))) = 9.
Proof.
  pose proof (C10_directive_is_first_hash_digit (fresh 0) eq_refl)
    as (H5 & H9 & _).
  repeat split; assumption.
Defined.

(** ** Lines that end a block and lines that do not *)

Lemma startswith_AC_colon (line : string) :
  Py.startswith line "AC:" = true -> classify line = LogfileAC.
Proof.
  unfold classify. intros H.
  destruct line as [|a [|b [|c r]]]; cbn [Py.startswith] in H;
    rewrite ?andb_false_r in H; try discriminate.
  apply andb_true_iff in H as [Ha H]. apply andb_true_iff in H as [Hb H].
  apply andb_true_iff in H as [Hc _].
  apply Ascii.eqb_eq in Ha, Hb, Hc. subst.
  change (Py.startswith (String "A" (String "C" (String ":" r))) "AC ")
    with false.
  change (Py.startswith (String "A" (String "C" (String ":" r))) "AC:")
    with true.
  reflexivity.
Qed.

(** C6, as stated, does not hold: "AC: x" is none of record start,
    secondary identifier, marker and record end, and it leaves the block
    that "## a" opened open, so that "## b" is appended to the same
    object. *)
Lemma C6_logfile_line_keeps_block_open :
  let w := snd (scan [ln "AC   P12345;"; ln "## a"] (fresh 0)) in
  classify (ln "AC: x") = LogfileAC
  /\ fb_block w = true
  /\ fb_block (snd (parse_line (ln "AC: x") w)) = true
  /\ map feedback
       (all_feedback
          (self (snd (parse [ln "AC   P12345;"; ln "## a"; ln "AC: x";
                             ln "## b"; ln "//"] (fresh 0)))))
     = ["a b "].
Proof. repeat split; reflexivity. Qed.

(** C6, amended: a line that reaches the final [else] of the chain (not a
    record start, not an "AC:" line, not a secondary identifier, not a
    marker line, not a record end) is processed without exception and
    leaves [fb_block] false, so that a marker line that follows opens a new
    object behind the existing ones; a line that starts with "AC:" takes
    the branch of its own and leaves [fb_block] as it was, so that a marker
    line that follows an open block is appended to the last object. *)
Theorem C6_other_line_closes_block (line : string) (w : World) :
  (classify line = Other ->
   fst (parse_line line w) = Ok tt
   /\ fb_block (snd (parse_line line w)) = false
   /\ forall m : string,
        classify m = Marker ->
        fst (parse_line m (snd (parse_line line w))) = Ok tt
        /\ all_feedback (self (snd (parse_line m (snd (parse_line line w)))))
           = (all_feedback (self w)
              ++ [opened m (snd (parse_line line w))])%list)
  /\ (Py.startswith line "AC:" = true ->
      classify line = LogfileAC
      /\ fst (parse_line line w) = Ok tt
      /\ fb_block (snd (parse_line line w)) = fb_block w
      /\ forall m : string,
           classify m = Marker -> fb_block w = true ->
           all_feedback (self w) <> [] ->
           fst (parse_line m (snd (parse_line line w))) = Ok tt
           /\ all_feedback
                (self (snd (parse_line m (snd (parse_line line w)))))
              = alter (fun o => with_feedback (feedback o ++ written m) o)
                  (List.length (all_feedback (self w)) - 1)
                  (all_feedback (self w))).
Proof.
  split.
  - intros C. rewrite (parse_line_Other line w C). cbn [fst snd fb_block].
    split; [reflexivity|]. split; [reflexivity|]. intros m Cm.
    rewrite parse_line_Marker_open by (assumption || reflexivity).
    split; reflexivity.
  - intros S. pose proof (startswith_AC_colon line S) as C.
    rewrite (parse_line_LogfileAC line w C). cbn [fst snd fb_block].
    split; [assumption|]. split; [reflexivity|]. split; [reflexivity|].
    intros m Cm Hb Hne.
    rewrite parse_line_Marker_cont by assumption.
    split; reflexivity.
Qed.

Lemma C6_other_line_closes_block_witness :
  classify (ln "XX") = Other
  /\ fb_block (snd (parse_line (ln "XX") (fresh 0))) = false
  /\ Py.startswith (ln "AC: x") "AC:" = true
  /\ fb_block (snd (parse_line (ln "AC: x") (fresh 0))) = fb_block (fresh 0).
Proof.
  destruct (C6_other_line_closes_block (ln "XX") (fresh 0)) as [H _].
  destruct (H eq_refl) as (_ & H1 & _).
  destruct (C6_other_line_closes_block (ln "AC: x") (fresh 0)) as [_ G].
  destruct (G eq_refl) as (_ & _ & G1 & _).
  repeat split; assumption.
Defined.

(** ** Secondary identifier lines *)

Lemma accepts_upper (c : ascii) :
  Re.accepts (Re.Class [Re.Range "A" "Z"]%char) c = is_upper c.
Proof. unfold Re.accepts, is_upper; simpl. apply orb_false_r. Qed.

Lemma accepts_ac_class (c : ascii) :
  Re.accepts
    (Re.Class [Re.Range "A" "Z"; Re.Single ","; Re.Range "0" "9"]%char) c
  = ac_class c.
Proof.
  unfold Re.accepts, ac_class, is_upper, is_digit; simpl.
  now rewrite orb_false_r, orb_assoc.
Qed.

Lemma ac_match_eq (line : string) :
  Re.match_here ac_regex line =
  match line with
  | String a (String b (String c (String d (String e (String f _))))) =>
      if is_upper a && is_digit b && ac_class c && ac_class d && ac_class e
         && is_digit f
      then head6 line else None
  | _ => None
  end.
Proof.
  unfold ac_regex.
  destruct line as [|a [|b [|c [|d [|e [|f r]]]]]];
    cbn [Re.match_here Re.what Re.optional Re.one head6];
    rewrite ?accepts_upper, ?accepts_digit, ?accepts_ac_class;
    repeat match goal with
           | |- context [if ?b then _ else _] =>
               destruct b; cbn [option_map andb]
           end; reflexivity.
Qed.

Lemma ac_match_not_AC (line g : string) :
  Re.match_here ac_regex line = Some g ->
  Py.startswith line "AC " = false /\ Py.startswith line "AC:" = false.
Proof.
  rewrite ac_match_eq.
  destruct line as [|a [|b [|c [|d [|e [|f r]]]]]]; try discriminate.
  destruct (is_digit b) eqn:Hb;
    [|rewrite andb_false_r; cbn [andb]; discriminate].
  intros _. cbn [Py.startswith].
  destruct (Ascii.eqb b "C") eqn:E.
  - apply Ascii.eqb_eq in E. subst b. discriminate.
  - now rewrite !andb_false_r.
Qed.

Lemma classify_SecondaryId_iff (line g : string) :
  classify line = SecondaryId g <-> Re.match_here ac_regex line = Some g.
Proof.
  unfold classify. split.
  - destruct (Py.startswith line "AC "); [discriminate|].
    destruct (Py.startswith line "AC:"); [discriminate|].
    destruct (Re.match_here ac_regex line).
    + now intros [= ->].
    + destruct (Py.startswith line "##"); [discriminate|].
      destruct (Py.startswith line "//"); discriminate.
  - intros H. destruct (ac_match_not_AC line g H) as [-> ->].
    now rewrite H.
Qed.

Lemma ac_class_no_comma (c : ascii) :
  Ascii.eqb c "," = false -> ac_class c = is_upper_or_digit c.
Proof.
  unfold ac_class, is_upper_or_digit. intros ->. now rewrite orb_false_r.
Qed.

(** C7, as stated, does not hold, in both directions: "A1abc2" is one
    upper-case letter, one digit, three alphanumeric characters and one
    digit, and is not taken for a secondary identifier; "A1,,,2" is taken
    for one, and its three middle characters are commas. *)
Lemma C7_pattern_is_not_alphanumeric :
  spec_secondary_shape (ln "A1abc2") = true
  /\ classify (ln "A1abc2") = Other
  /\ spec_secondary_shape (ln "A1,,,2") = false
  /\ classify (ln "A1,,,2") = SecondaryId "A1,,,2".
Proof. repeat split; reflexivity. Qed.

(** C7, amended: a line none of whose third, fourth and fifth characters is
    a comma takes the secondary-identifier branch exactly when it starts
    with one upper-case letter, one digit, three characters that are each
    an upper-case letter or a digit, and one digit (such a line is never a
    record-start line).  The matched token is the first six characters of
    the line; processing the line raises nothing, puts the token in
    [current_entry] when that is unset and leaves [current_entry] as it is
    when it is set. *)
Theorem C7_secondary_identifier (line : string) (w : World) :
  (comma_in_middle line = false ->
   (exists g, classify line = SecondaryId g) <-> accession_shape line = true)
  /\ (forall g : string,
        classify line = SecondaryId g ->
        head6 line = Some g
        /\ Py.startswith line "AC " = false
        /\ fst (parse_line line w) = Ok tt
        /\ current_entry (self (snd (parse_line line w)))
           = match current_entry (self w) with
             | None => Some g
             | Some x => Some x
             end).
Proof.
  split.
  - intros Hc.
    assert (E : Re.match_here ac_regex line
                = if accession_shape line then head6 line else None).
    { rewrite ac_match_eq.
      destruct line as [|a [|b [|c [|d [|e [|f r]]]]]]; try reflexivity.
      cbn [comma_in_middle] in Hc.
      apply orb_false_iff in Hc as [Hc He].
      apply orb_false_iff in Hc as [Hc Hd].
      cbn [accession_shape].
      now rewrite !ac_class_no_comma by assumption. }
    split.
    + intros [g C]. apply classify_SecondaryId_iff in C.
      rewrite E in C.
      destruct (accession_shape line); [reflexivity|discriminate].
    + intros S. rewrite S in E.
      destruct line as [|a [|b [|c [|d [|e [|f r]]]]]]; try discriminate.
      eexists. apply classify_SecondaryId_iff. exact E.
  - intros g C. pose proof C as C'. apply classify_SecondaryId_iff in C'.
    split; [|split; [exact (proj1 (ac_match_not_AC line g C'))|]].
    + rewrite ac_match_eq in C'.
      destruct line as [|a [|b [|c [|d [|e [|f r]]]]]]; try discriminate.
      destruct (is_upper a && is_digit b && ac_class c && ac_class d
                && ac_class e && is_digit f); [exact C'|discriminate].
    + rewrite (parse_line_SecondaryId line g w C). cbn [fst snd self].
      split; [reflexivity|].
      destruct (current_entry (self w)) eqn:E; [exact E|reflexivity].
Qed.

Lemma C7_secondary_identifier_witness :
  comma_in_middle (ln "P12345 sample") = false
  /\ accession_shape (ln "P12345 sample") = true
  /\ classify (ln "P12345 sample") = SecondaryId "P12345"
  /\ current_entry (self (snd (parse_line (ln "P12345 sample") (fresh 0))))
     = Some "P12345".
Proof.
  destruct (C7_secondary_identifier (ln "P12345 sample") (fresh 0))
    as [H G].
  destruct (G "P12345" eq_refl) as (_ & _ & _ & G1).
  split; [reflexivity|]. split; [|split; [reflexivity|exact G1]].
  apply (H eq_refl). exists "P12345". reflexivity.
Defined.

(** ** Two runs in one process *)

Lemma alter_map {A : Type} (f g : A -> A) (i : nat) (l : list A) :
  (forall x, f (g x) = g (f x)) ->
  alter f i (map g l) = map g (alter f i l).
Proof.
  intros H. revert i. induction l as [|x l IH]; intros [|i]; simpl;
    rewrite ?H, ?IH; reflexivity.
Qed.

Lemma parse_line_shift (line : string) :
  invariant_under_shift (parse_line line).
Proof.
  intros k w. destruct (classify line) eqn:C.
  - now rewrite !(parse_line_RecordStart line _ C).
  - now rewrite !(parse_line_LogfileAC line _ C).
  - rewrite !(parse_line_SecondaryId line g _ C). cbn [fst snd].
    unfold shift_world at 1 2 3. cbn [self Feedback_ids fb_block].
    unfold shift_report at 1. cbn [current_entry with_all_feedback].
    destruct (current_entry (self w)); reflexivity.
  - destruct (fb_block w) eqn:B.
    + destruct (all_feedback (self w)) as [|x l] eqn:E.
      * rewrite !parse_line_Marker_orphan; try assumption; try reflexivity.
        cbn [self shift_world shift_report with_all_feedback all_feedback].
        now rewrite E.
      * rewrite !parse_line_Marker_cont; try assumption; try congruence.
        -- cbn [fst snd]. unfold shift_world, shift_report.
           cbn [self Feedback_ids fb_block with_all_feedback all_feedback
                pushed with_scanner scanner current_entry current_context
                all_accessions].
           rewrite length_map, alter_map; reflexivity.
        -- cbn [self shift_world shift_report with_all_feedback all_feedback].
           rewrite E. discriminate.
    + rewrite !parse_line_Marker_open; try assumption.
      cbn [fst snd]. unfold shift_world, shift_report, opened.
      cbn [self Feedback_ids fb_block with_all_feedback all_feedback
           pushed with_scanner scanner current_entry current_context
           all_accessions with_current_context].
      rewrite map_app.
      replace (Feedback_ids w + k + 1) with (Feedback_ids w + 1 + k) by lia.
      unfold context_slice, with_all_feedback, with_current_context,
        with_scanner.
      cbn [scanner current_entry current_context all_accessions all_feedback
           map shift_fb id feedback context ac tag].
      reflexivity.
  - now rewrite !(parse_line_RecordEnd line _ C).
  - now rewrite !(parse_line_Other line _ C).
Qed.

Lemma for_each_shift {A : Type} (l : list A) (body : A -> M unit) :
  (forall x, invariant_under_shift (body x)) ->
  invariant_under_shift (for_each l body).
Proof.
  intros H. induction l as [|x l IH]; intros k w.
  - reflexivity.
  - simpl. unfold bind. rewrite (H x k w).
    destruct (body x w) as [[[]|e] w1]; cbn [fst snd].
    + apply IH.
    + reflexivity.
Qed.

Lemma retrofit_one_shift (i : nat) : invariant_under_shift (retrofit_one i).
Proof.
  intros k w. unfold retrofit_one, try_IndexError, list_last. run_monad.
  cbn [self shift_world shift_report with_all_feedback all_feedback
       all_accessions].
  rewrite !nth_error_map.
  destruct (nth_error (all_feedback (self w)) i) as [fb|]; [|reflexivity].
  cbn [option_map shift_fb ac].
  destruct (ac fb); [reflexivity|].
  destruct (nth_error (all_feedback (self w)) (i + 1)) as [nxt|];
    cbn [option_map shift_fb ac fst snd self with_all_feedback all_feedback
         all_accessions shift_world shift_report Feedback_ids fb_block].
  - rewrite alter_map by reflexivity. reflexivity.
  - destruct (rev (all_accessions (self w))); [reflexivity|].
    cbn [fst snd self with_all_feedback all_feedback shift_world
         shift_report Feedback_ids fb_block].
    rewrite alter_map by reflexivity. reflexivity.
Qed.

Lemma retrofit_ACs_shift : invariant_under_shift retrofit_ACs.
Proof.
  intros k w. unfold retrofit_ACs, bind, get_self.
  cbn [self shift_world shift_report with_all_feedback all_feedback].
  rewrite length_map.
  apply (for_each_shift _ _ retrofit_one_shift).
Qed.

Lemma parse_shift (f : list string) : invariant_under_shift (parse f).
Proof.
  intros k w. unfold parse, bind, put_fb_block.
  change {| Feedback_ids := Feedback_ids (shift_world k w);
            self := self (shift_world k w); fb_block := false |}
    with (shift_world k {| Feedback_ids := Feedback_ids w; self := self w;
                           fb_block := false |}).
  rewrite (for_each_shift f parse_line parse_line_shift).
  destruct (for_each f parse_line _) as [[[]|e] w1]; cbn [fst snd].
  - apply retrofit_ACs_shift.
  - reflexivity.
Qed.

Lemma map_alter_absorb {A B : Type} (g : A -> B) (f : A -> A) (i : nat)
  (l : list A) :
  (forall x, g (f x) = g x) -> map g (alter f i l) = map g l.
Proof.
  intros H. revert i. induction l as [|x l IH]; intros [|i]; simpl;
    rewrite ?H, ?IH; reflexivity.
Qed.

Lemma for_each_preserves {A : Type} (P : World -> Prop) (l : list A)
  (body : A -> M unit) (w : World) :
  (forall x w, P w -> P (snd (body x w))) ->
  P w -> P (snd (for_each l body w)).
Proof.
  intros H. revert w. induction l as [|x l IH]; intros w Hw.
  - exact Hw.
  - simpl. unfold bind. specialize (H x w Hw).
    destruct (body x w) as [[[]|e] w1]; cbn [snd] in *.
    + now apply IH.
    + exact H.
Qed.

Lemma retrofit_one_same (i : nat) (w0 w : World) :
  same_but_ac w0 w -> same_but_ac w0 (snd (retrofit_one i w)).
Proof.
  intros (H1 & H2 & H3).
  unfold retrofit_one, try_IndexError, list_last. run_monad.
  destruct (nth_error (all_feedback (self w)) i) as [fb|];
    [|now repeat split].
  destruct (ac fb); [now repeat split|].
  destruct (nth_error (all_feedback (self w)) (i + 1)) as [nxt|].
  - repeat split; cbn [snd self Feedback_ids with_all_feedback all_feedback
                       all_accessions]; try assumption.
    now rewrite map_alter_absorb.
  - cbn [self]. destruct (rev (all_accessions (self w))); [now repeat split|].
    repeat split; cbn [snd self Feedback_ids with_all_feedback all_feedback
                       all_accessions]; try assumption.
    now rewrite map_alter_absorb.
Qed.

Lemma retrofit_ACs_same (w : World) : same_but_ac w (snd (retrofit_ACs w)).
Proof.
  unfold retrofit_ACs, bind, get_self.
  apply for_each_preserves.
  - intros i w1. apply retrofit_one_same.
  - now repeat split.
Qed.

Lemma same_but_ac_fields (w w' : World) :
  same_but_ac w w' ->
  List.length (all_feedback (self w')) = List.length (all_feedback (self w))
  /\ map id (all_feedback (self w')) = map id (all_feedback (self w))
  /\ map context (all_feedback (self w'))
     = map context (all_feedback (self w))
  /\ map feedback (all_feedback (self w'))
     = map feedback (all_feedback (self w)).
Proof.
  intros (_ & _ & H).
  split; [|split; [|split]].
  - apply (f_equal (@List.length _)) in H. now rewrite !length_map in H.
  - apply (f_equal (map id)) in H. now rewrite !map_map in H.
  - apply (f_equal (map context)) in H. now rewrite !map_map in H.
  - apply (f_equal (map feedback)) in H. now rewrite !map_map in H.
Qed.

Lemma parse_line_ids (ids : Z) (line : string) (w : World) :
  ids_consecutive ids w -> ids_consecutive ids (snd (parse_line line w)).
Proof.
  intros [H1 H2]. destruct (classify line) eqn:C.
  - now rewrite (parse_line_RecordStart line _ C).
  - now rewrite (parse_line_LogfileAC line _ C).
  - rewrite (parse_line_SecondaryId line g _ C). cbn [snd].
    unfold ids_consecutive. cbn [self Feedback_ids].
    destruct (current_entry (self w)); now split.
  - destruct (fb_block w) eqn:B.
    + destruct (all_feedback (self w)) as [|x l] eqn:E.
      * rewrite parse_line_Marker_orphan by assumption.
        unfold ids_consecutive in *.
        cbn [snd self Feedback_ids pushed with_scanner all_feedback].
        rewrite E in *. now split.
      * rewrite parse_line_Marker_cont by (assumption || congruence).
        unfold ids_consecutive in *.
        cbn [snd self Feedback_ids with_all_feedback all_feedback].
        rewrite alter_length, map_alter_absorb by reflexivity.
        rewrite E in *. now split.
    + rewrite parse_line_Marker_open by assumption.
      unfold ids_consecutive in *.
      cbn [snd self Feedback_ids with_all_feedback all_feedback].
      rewrite length_app, map_app, H2. cbn [List.length map opened id].
      rewrite Nat.add_1_r, seq_S, map_app. cbn [map Nat.add].
      rewrite H1. split; [lia|reflexivity].
  - now rewrite (parse_line_RecordEnd line _ C).
  - now rewrite (parse_line_Other line _ C).
Qed.

Lemma parse_after_scan (f : list string) (ids : Z) :
  exists w, scan f (fresh ids) = (Ok tt, w)
            /\ block_open_ok w
            /\ parse f (fresh ids) = retrofit_ACs w.
Proof.
  destruct (scan_ok f ids) as (w & E & H).
  exists w. repeat split; try assumption. now apply parse_scan.
Qed.

Lemma parse_ids (f : list string) (ids : Z) :
  ids_consecutive ids (snd (parse f (fresh ids))).
Proof.
  destruct (parse_after_scan f ids) as (w & E & _ & ->).
  assert (Hw : ids_consecutive ids w).
  { rewrite scan_fresh in E.
    replace w with (snd (for_each f parse_line (fresh ids)))
      by now rewrite E.
    apply for_each_preserves.
    - intros line w1. apply parse_line_ids.
    - split; [cbn; lia|reflexivity]. }
  destruct (retrofit_ACs_same w) as (S1 & S2 & S3).
  destruct (same_but_ac_fields _ _ (conj S1 (conj S2 S3))) as (L & I & _).
  destruct Hw as [H1 H2]. unfold ids_consecutive.
  now rewrite S1, L, I.
Qed.

(** C9, as stated, does not hold: the second run over a three-line stream
    numbers its object 1 where the first run numbered it 0. *)
Lemma C9_second_run_renumbers :
  let f := [ln "AC   P12345;"; ln "## a"; ln "//"] in
  let run1 := parse f (fresh 0) in
  let run2 := parse f (fresh (Feedback_ids (snd run1))) in
  map id (all_feedback (self (snd run1))) = [0]
  /\ map id (all_feedback (self (snd run2))) = [1]
  /\ all_feedback (self (snd run1)) <> all_feedback (self (snd run2)).
Proof.
  repeat split; try reflexivity.
  intros H. apply (f_equal (map id)) in H. vm_compute in H. discriminate H.
Qed.

(** C9, amended: two runs over the same stream in one process, each on a
    new [Report], end the same way (both normally, or both with the same
    exception) and leave object sequences of equal length that agree, in
    order, on text, context, accession and tag.  The [id]s come from the
    counter of the class, which the second run finds where the first left
    it: the first run numbers its [n] objects from the start value on, and
    each [id] of the second run is the [id] of the first plus [n]. *)
Theorem C9_runs_agree_up_to_id (f : list string) (ids : Z) :
  let run1 := parse f (fresh ids) in
  let run2 := parse f (fresh (Feedback_ids (snd run1))) in
  let items1 := all_feedback (self (snd run1)) in
  let items2 := all_feedback (self (snd run2)) in
  let n := Z.of_nat (List.length items1) in
  fst run2 = fst run1
  /\ map forget_id items2 = map forget_id items1
  /\ Feedback_ids (snd run1) = ids + n
  /\ map id items1
     = map (fun i => ids + Z.of_nat i) (seq 0 (List.length items1))
  /\ map id items2 = map (fun i => i + n) (map id items1).
Proof.
  intros run1 run2 items1 items2 n.
  destruct (parse_ids f ids) as [H1 H2]. fold run1 items1 n in H1, H2.
  assert (E : run2 = (fst run1, shift_world n (snd run1))).
  { unfold run2. rewrite H1.
    replace (fresh (ids + n)) with (shift_world n (fresh ids)) by reflexivity.
    apply parse_shift. }
  assert (I : items2 = map (shift_fb n) items1).
  { unfold items2. rewrite E. reflexivity. }
  split; [now rewrite E|]. split; [|split; [exact H1|split; [exact H2|]]].
  - rewrite I, map_map. apply map_ext. reflexivity.
  - rewrite I, !map_map. apply map_ext. reflexivity.
Qed.

(** ** The captured context *)

Lemma lines_since_snoc (f : list string) (line : string) :
  lines_since_record_end (f ++ [line])
  = if is_record_end line then O else S (lines_since_record_end f).
Proof. unfold lines_since_record_end. now rewrite fold_left_app. Qed.

Lemma deque_append_length (d : list string) (x : string) :
  (List.length (deque_append d x) <= S (List.length d))%nat.
Proof.
  unfold deque_append. destruct (maxlen <=? List.length d)%nat;
    rewrite length_app; cbn [List.length]; [|lia].
  destruct d; cbn [tl List.length]; lia.
Qed.

Lemma context_slice_bounds (r : Report) :
  0 <= current_context r ->
  Z.of_nat (List.length (context_slice r)) <= current_context r
  /\ (List.length (context_slice r) <= List.length (scanner r) - 1)%nat.
Proof.
  intros H. unfold context_slice, Py.slice, Py.norm_index.
  destruct (0 <=? Z.of_nat (List.length (scanner r)) - 1 - current_context r)
    eqn:E1;
    repeat match goal with
           | |- context [?a <? ?b] => destruct (Z.ltb_spec a b)
           end;
    rewrite length_firstn, length_skipn;
    try apply Z.leb_le in E1; try apply Z.leb_gt in E1; lia.
Qed.

Lemma captured_at_later (ids : Z) (f : list string) (line : string)
  (i : nat) (c : string) :
  captured_at ids f i c -> captured_at ids (f ++ [line]) i c.
Proof.
  intros (before & l & after & w0 & -> & H).
  exists before, l, (after ++ [line])%list, w0.
  split; [|exact H]. now rewrite <- app_assoc.
Qed.

Lemma scan_snoc (f : list string) (line : string) (ids : Z) (w : World) :
  scan f (fresh ids) = (Ok tt, w) ->
  scan (f ++ [line]) (fresh ids) = parse_line line w.
Proof. rewrite !scan_fresh. apply for_each_snoc. Qed.

(** What holds after the loop has consumed [f]. *)
Lemma scan_captures (ids : Z) (f : list string) :
  exists w,
    scan f (fresh ids) = (Ok tt, w)
    /\ block_open_ok w
    /\ (List.length (scanner (self w)) <= lines_since_record_end f)%nat
    /\ forall i c,
         nth_error (map context (all_feedback (self w))) i = Some c ->
         captured_at ids f i c.
Proof.
  induction f as [|line f IH] using rev_ind.
  - exists (fresh ids). repeat split.
    + intros H; discriminate.
    + cbn. lia.
    + intros [|i] c H; discriminate.
  - destruct IH as (w & E & Hopen & Hlen & Hcap).
    rewrite (scan_snoc f line ids w E), lines_since_snoc.
    pose proof (deque_append_length (scanner (self w)) (Py.strip line)) as Hd.
    assert (Hold : forall i c,
               nth_error (map context (all_feedback (self w))) i = Some c ->
               captured_at ids (f ++ [line]) i c).
    { intros i c H. apply captured_at_later. now apply Hcap. }
    destruct (classify line) eqn:C; unfold is_record_end; rewrite C.
    + eexists. split; [now apply parse_line_RecordStart|].
      split; [intros H; discriminate|].
      split; [cbn [self scanner with_current_entry pushed with_scanner]; lia|].
      exact Hold.
    + eexists. split; [now apply parse_line_LogfileAC|].
      split; [exact Hopen|].
      split; [cbn [self scanner pushed with_scanner]; lia|].
      exact Hold.
    + eexists. split; [apply parse_line_SecondaryId, C|].
      unfold block_open_ok. cbn [self fb_block].
      destruct (current_entry (self w));
        (split; [exact Hopen|]);
        (split; [cbn [self scanner with_current_entry pushed with_scanner];
                 lia|]);
        exact Hold.
    + destruct (fb_block w) eqn:B.
      * specialize (Hopen B).
        eexists. split; [now apply parse_line_Marker_cont|].
        split.
        { intros _ H. apply (f_equal (@List.length _)) in H.
          cbn [self with_all_feedback all_feedback] in H.
          rewrite alter_length in H.
          destruct (all_feedback (self w)); [congruence|discriminate]. }
        split;
          [cbn [self scanner with_all_feedback pushed with_scanner]; lia|].
        cbn [self with_all_feedback all_feedback].
        rewrite map_alter_absorb by reflexivity. exact Hold.
      * eexists. split; [now apply parse_line_Marker_open|].
        split.
        { intros _ H. cbn [self with_all_feedback all_feedback] in H.
          destruct (all_feedback (self w)); discriminate. }
        split;
          [cbn [self scanner with_all_feedback with_current_context pushed
                with_scanner]; lia|].
        cbn [self with_all_feedback all_feedback].
        intros i c H. rewrite map_app in H.
        destruct (Nat.lt_ge_cases i (List.length (all_feedback (self w))))
          as [Hi | Hi].
        -- rewrite nth_error_app1 in H by now rewrite length_map.
           now apply Hold.
        -- rewrite nth_error_app2 in H by now rewrite length_map.
           rewrite length_map in H.
           destruct (i - List.length (all_feedback (self w)))%nat
             as [|j] eqn:Ej; [|destruct j; discriminate].
           cbn [map nth_error opened context] in H. injection H as <-.
           exists f, line, (@nil string), w.
           rewrite (parse_line_Marker_open line w C B).
           cbn [snd self with_all_feedback scanner current_context
                with_current_context].
           assert (R : 0 <= requested line 1 <= 9)
             by (apply requested_range; lia).
           destruct (context_slice_bounds
                       (with_current_context (requested line 1)
                          (pushed line (self w)))) as [B1 B2];
             [cbn [current_context with_current_context]; lia|].
           cbn [current_context with_current_context scanner pushed
                with_scanner] in B1, B2.
           repeat split; try assumption; try reflexivity; try lia.
           unfold context_slice in *.
           cbn [scanner current_context with_all_feedback
                with_current_context pushed with_scanner] in *.
           lia.
    + eexists. split; [now apply parse_line_RecordEnd|].
      split; [intros H; discriminate|].
      split; [cbn [self scanner List.length]; lia|].
      exact Hold.
    + eexists. split; [now apply parse_line_Other|].
      split; [intros H; discriminate|].
      split; [cbn [self scanner pushed with_scanner]; lia|].
      exact Hold.
Qed.

(** C8: every object that a run leaves in [all_feedback], at any position
    [i], was opened by a marker line of the stream that the loop met
    outside a block when [i] objects existed; its context is the join of
    the slice captured at that line; the number of lines of the slice is at
    most [current_context] as the line leaves it (the requested size) and
    at most the number of lines consumed between the last record-end line
    before it (or the start of the stream) and the line itself. *)
Theorem C8_context_bounded (ids : Z) (f : list string) (i : nat)
  (fb : Feedback) :
  nth_error (all_feedback (self (snd (parse f (fresh ids))))) i = Some fb ->
  exists (before : list string) (line : string) (after : list string)
         (w0 : World),
    f = (before ++ line :: after)%list
    /\ scan before (fresh ids) = (Ok tt, w0)
    /\ classify line = Marker
    /\ fb_block w0 = false
    /\ List.length (all_feedback (self w0)) = i
    /\ context fb
       = Py.join Py.nl (context_slice (self (snd (parse_line line w0))))
    /\ Z.of_nat (List.length (context_slice (self (snd (parse_line line w0)))))
       <= current_context (self (snd (parse_line line w0)))
    /\ (List.length (context_slice (self (snd (parse_line line w0))))
        <= lines_since_record_end before)%nat.
Proof.
  intros H. change (captured_at ids f i (context fb)).
  destruct (scan_captures ids f) as (w & E & _ & _ & Hcap).
  rewrite (parse_scan f _ w E) in H.
  apply Hcap.
  destruct (same_but_ac_fields _ _ (retrofit_ACs_same w)) as (_ & _ & <- & _).
  now apply map_nth_error.
Qed.

Lemma C8_context_bounded_witness :
  let f := [ln "ID foo"; ln "//"; ln "DE bar"; ln "XX"; ln "## #5 note";
            ln "AC   P12345;"; ln "//"] in
  let fb := {| id := 0; feedback := "#5 note ";
               context := Py.join Py.nl ["DE bar"; "XX"];
               ac := Some "P12345"; tag := None |} in
  nth_error (all_feedback (self (snd (parse f (fresh 0))))) 0 = Some fb
  /\ exists before line after w0,
       f = (before ++ line :: after)%list
       /\ scan before (fresh 0) = (Ok tt, w0)
       /\ classify line = Marker
       /\ fb_block w0 = false
       /\ List.length (all_feedback (self w0)) = O
       /\ context fb
          = Py.join Py.nl (context_slice (self (snd (parse_line line w0))))
       /\ Z.of_nat
            (List.length (context_slice (self (snd (parse_line line w0)))))
          <= current_context (self (snd (parse_line line w0)))
       /\ (List.length (context_slice (self (snd (parse_line line w0))))
           <= lines_since_record_end before)%nat.
Proof.
  intros f fb. split; [reflexivity|].
  apply (C8_context_bounded 0 f 0 fb). reflexivity.
Defined.

(** ** What the retrofit computes *)

Lemma alter_middle {A : Type} (f : A -> A) (l1 : list A) (x : A)
  (l2 : list A) :
  alter f (List.length l1) (l1 ++ x :: l2)%list = (l1 ++ f x :: l2)%list.
Proof. induction l1 as [|y l1 IH]; simpl; [reflexivity|now rewrite IH]. Qed.

Lemma nth_error_middle {A : Type} (l1 : list A) (x : A) (l2 : list A) :
  nth_error (l1 ++ x :: l2) (List.length l1) = Some x.
Proof. induction l1 as [|y l1 IH]; simpl; [reflexivity|exact IH]. Qed.

Lemma with_items_same (w : World) : with_items (all_feedback (self w)) w = w.
Proof. destruct w as [i [a b c d e] g]. reflexivity. Qed.

Lemma with_ac_same (fb : Feedback) : with_ac (ac fb) fb = fb.
Proof. destruct fb. reflexivity. Qed.

Lemma retrofit_loop (todo done : list Feedback) (w : World) :
  all_feedback (self w) = (done ++ todo)%list ->
  for_each (seq (List.length done) (List.length todo)) retrofit_one w
  = (retrofit_outcome (all_accessions (self w)) todo,
     with_items
       (done ++ retrofitted (hd None (rev (all_accessions (self w)))) todo)
       w).
Proof.
  revert done w. induction todo as [|fb rest IH]; intros done w E.
  - cbn [List.length seq for_each retrofitted]. rewrite <- E, with_items_same.
    unfold retrofit_outcome. cbn [ends_unset].
    destruct (rev (all_accessions (self w))); reflexivity.
  - cbn [List.length seq for_each]. unfold bind.
    assert (Step : forall (fb' : Feedback) (w1 : World),
               all_feedback (self w1) = ((done ++ [fb']) ++ rest)%list ->
               all_accessions (self w1) = all_accessions (self w) ->
               w1 = with_items (all_feedback (self w1)) w ->
               for_each (seq (S (List.length done)) (List.length rest))
                 retrofit_one w1
               = (retrofit_outcome (all_accessions (self w)) rest,
                  with_items
                    ((done ++ [fb'])
                     ++ retrofitted
                          (hd None (rev (all_accessions (self w)))) rest)
                    w)).
    { intros fb' w1 E1 E2 E3.
      replace (S (List.length done)) with (List.length (done ++ [fb']))
        by (rewrite length_app; cbn [List.length]; lia).
      rewrite (IH (done ++ [fb'])%list w1 E1), E2. f_equal.
      rewrite E3. reflexivity. }
    unfold retrofit_one at 1, try_IndexError, list_last. run_monad.
    rewrite E, nth_error_middle.
    destruct (ac fb) as [a|] eqn:Eac.
    + rewrite (Step fb); [| now rewrite E, <- app_assoc | reflexivity
                          | now rewrite with_items_same].
      unfold retrofit_outcome. cbn [retrofitted ends_unset]. rewrite Eac.
      rewrite <- app_assoc. cbn [app].
      destruct rest; [|reflexivity].
      destruct (rev (all_accessions (self w))); reflexivity.
    + replace (List.length done + 1)%nat with (List.length (done ++ [fb]))
        by (rewrite length_app; reflexivity).
      destruct rest as [|nxt rest].
      * rewrite (proj2 (nth_error_None _ _))
          by (rewrite length_app; cbn [List.length]; lia).
        cbn [List.length seq for_each retrofitted ends_unset ret].
        unfold retrofit_outcome. cbn [ends_unset]. rewrite Eac.
        destruct (rev (all_accessions (self w))) as [|a accs].
        -- cbn [hd]. rewrite <- Eac, with_ac_same, <- E, with_items_same.
           reflexivity.
        -- cbn [hd self]. rewrite E, alter_middle. reflexivity.
      * replace (nth_error (done ++ fb :: nxt :: rest)
                   (List.length (done ++ [fb])))
          with (Some nxt)
          by (rewrite <- (nth_error_middle (done ++ [fb]) nxt rest),
                <- app_assoc; reflexivity).
        cbv beta iota. rewrite E, alter_middle.
        rewrite (Step (with_ac (ac nxt) fb)).
        -- unfold retrofit_outcome. cbn [retrofitted ends_unset].
           rewrite Eac, <- app_assoc. reflexivity.
        -- cbn [self with_all_feedback all_feedback].
           now rewrite <- app_assoc.
        -- reflexivity.
        -- reflexivity.
Qed.

(** The retrofit as a whole: the list it leaves and the way it ends. *)
Lemma retrofit_ACs_eq (w : World) :
  retrofit_ACs w
  = (retrofit_outcome (all_accessions (self w)) (all_feedback (self w)),
     with_items
       (retrofitted (hd None (rev (all_accessions (self w))))
          (all_feedback (self w)))
       w).
Proof.
  unfold retrofit_ACs, bind, get_self.
  apply (retrofit_loop (all_feedback (self w)) [] w). reflexivity.
Qed.

Lemma parse_outcome (f : list string) (ids : Z) :
  exists w,
    scan f (fresh ids) = (Ok tt, w)
    /\ parse f (fresh ids)
       = (retrofit_outcome (all_accessions (self w)) (all_feedback (self w)),
          with_items
            (retrofitted (hd None (rev (all_accessions (self w))))
               (all_feedback (self w)))
            w).
Proof.
  destruct (parse_after_scan f ids) as (w & E & _ & ->).
  exists w. split; [exact E|apply retrofit_ACs_eq].
Qed.

(** ** The retrofit of accessions *)

(** C2, on the code: whatever the loop has collected, the retrofit gives an
    object without accession the accession that the object immediately
    behind it had when the retrofit began, set or not, and gives the last
    object the last entry of [all_accessions].  In the stream below three
    objects are created, the first two without accession and the third
    with "P12345"; after the retrofit the first one is still without
    accession. *)
Theorem C2_retrofit_takes_immediate_successor :
  (forall w : World,
     all_feedback (self (snd (retrofit_ACs w)))
     = retrofitted (hd None (rev (all_accessions (self w))))
         (all_feedback (self w)))
  /\ let f := [ln "ID foo"; ln "## a"; ln "XX"; ln "## b";
               ln "AC   P12345;"; ln "## c"; ln "//"] in
     map ac (all_feedback (self (snd (scan f (fresh 0)))))
     = [None; None; Some "P12345"]
     /\ fst (parse f (fresh 0)) = Ok tt
     /\ map ac (all_feedback (self (snd (parse f (fresh 0)))))
        = [None; Some "P12345"; Some "P12345"].
Proof.
  split.
  - intros w. rewrite retrofit_ACs_eq. reflexivity.
  - repeat split; reflexivity.
Qed.

(** C4, on the code: a record-end line follows both objects of the first
    stream below, and the run ends without an exception, yet the first
    object has no accession after the retrofit.  Two more streams: an entry
    without AC line records an unset accession at its record end, which the
    retrofit then hands out; and a secondary identifier line that no record
    end follows leaves [all_accessions] empty, so that the retrofit
    raises. *)
Theorem C4_accession_left_unset :
  (let f := [ln "ID foo"; ln "## a"; ln "XX"; ln "## b";
             ln "AC   P12345;"; ln "//"] in
   existsb is_record_end f = true
   /\ fst (parse f (fresh 0)) = Ok tt
   /\ map ac (all_feedback (self (snd (parse f (fresh 0)))))
      = [None; Some "P12345"])
  /\ (let f := [ln "## a"; ln "//"] in
      fst (parse f (fresh 0)) = Ok tt
      /\ map ac (all_feedback (self (snd (parse f (fresh 0))))) = [None])
  /\ (let f := [ln "## a"; ln "P12345 sample"] in
      classify (ln "P12345 sample") = SecondaryId "P12345"
      /\ fst (parse f (fresh 0)) = Raise IndexError
      /\ map ac (all_feedback (self (snd (parse f (fresh 0))))) = [None]).
Proof. repeat split; reflexivity. Qed.

(** C5, on the code: the loop over the lines never raises, and the run
    ends as the retrofit does: with IndexError exactly when no record end
    was seen and the last object has no accession.  A stream that holds one
    marker line and nothing else is such a case: [parse] raises IndexError,
    from [all_accessions[-1]] in the handler of the retrofit. *)
Theorem C5_parse_raises :
  (forall (f : list string) (ids : Z),
     exists w,
       scan f (fresh ids) = (Ok tt, w)
       /\ fst (parse f (fresh ids))
          = match all_accessions (self w) with
            | [] => if ends_unset (all_feedback (self w))
                    then Raise IndexError else Ok tt
            | _ :: _ => Ok tt
            end)
  /\ forall ids : Z,
       fst (scan [ln "## note"] (fresh ids)) = Ok tt
       /\ fst (parse [ln "## note"] (fresh ids)) = Raise IndexError.
Proof.
  split.
  - intros f ids. destruct (parse_outcome f ids) as (w & E & ->).
    exists w. split; [exact E|]. cbn [fst]. unfold retrofit_outcome.
    destruct (all_accessions (self w)) as [|a l]; [reflexivity|].
    cbn [rev]. destruct (rev l); reflexivity.
  - intros ids. split; reflexivity.
Qed.

(** * Further properties of the parsing loop *)

(** ** What one line does to each field *)

Ltac branches line w C :=
  destruct (classify line) eqn:C;
  [ rewrite (parse_line_RecordStart line w C)
  | rewrite (parse_line_LogfileAC line w C)
  | rewrite (parse_line_SecondaryId line _ w C)
  | let B := fresh "B" in
    let E := fresh "E" in
    destruct (fb_block w) eqn:B;
    [ destruct (all_feedback (self w)) eqn:E;
      [ rewrite (parse_line_Marker_orphan line w C B E)
      | rewrite (parse_line_Marker_cont line w C B)
          by (rewrite E; discriminate) ]
    | rewrite (parse_line_Marker_open line w C B) ]
  | rewrite (parse_line_RecordEnd line w C)
  | rewrite (parse_line_Other line w C) ].

Lemma parse_line_scanner (line : string) (w : World) :
  scanner (self (snd (parse_line line w)))
  = if is_record_end line then []
    else deque_append (scanner (self w)) (Py.strip line).
Proof.
  unfold is_record_end. branches line w C; cbn [snd self]; try reflexivity.
  destruct (current_entry (self w)); reflexivity.
Qed.

Lemma parse_line_all_accessions (line : string) (w : World) :
  all_accessions (self (snd (parse_line line w)))
  = if is_record_end line
    then (all_accessions (self w) ++ [current_entry (self w)])%list
    else all_accessions (self w).
Proof.
  unfold is_record_end. branches line w C; cbn [snd self]; try reflexivity.
  destruct (current_entry (self w)); reflexivity.
Qed.

Lemma parse_line_current_context (line : string) (w : World) :
  current_context (self (snd (parse_line line w)))
  = match classify line with
    | RecordEnd => 1
    | Marker => if fb_block w then current_context (self w)
                else requested line 1
    | _ => current_context (self w)
    end.
Proof.
  branches line w C; cbn [snd self]; try reflexivity.
  destruct (current_entry (self w)); reflexivity.
Qed.

(** Induction over the lines consumed so far. *)
Lemma scan_invariant (ids : Z) (P : list string -> World -> Prop) :
  P [] (fresh ids) ->
  (forall f line w,
     scan f (fresh ids) = (Ok tt, w) -> block_open_ok w -> P f w ->
     P (f ++ [line])%list (snd (parse_line line w))) ->
  forall f, exists w,
    scan f (fresh ids) = (Ok tt, w) /\ block_open_ok w /\ P f w.
Proof.
  intros H0 Hstep f. induction f as [|line f IH] using rev_ind.
  - exists (fresh ids). repeat split; [intros H; discriminate|exact H0].
  - destruct IH as (w & E & Hopen & Hw).
    destruct (parse_line_ok line w Hopen) as (w' & E' & Hopen').
    exists w'. rewrite (scan_snoc f line ids w E). repeat split; trivial.
    specialize (Hstep f line w E Hopen Hw). now rewrite E' in Hstep.
Qed.

(** ** The window of recent lines *)

Lemma since_record_end_snoc (f : list string) (line : string) :
  since_record_end (f ++ [line])
  = if is_record_end line then []
    else (since_record_end f ++ [line])%list.
Proof. unfold since_record_end. now rewrite fold_left_app. Qed.

Lemma tl_skipn {A : Type} (k : nat) (l : list A) :
  tl (skipn k l) = skipn (S k) l.
Proof.
  revert k. induction l as [|x l IH]; intros [|k]; try reflexivity.
  cbn [skipn]. rewrite IH. reflexivity.
Qed.

Lemma lastn_length {A : Type} (n : nat) (l : list A) :
  List.length (lastn n l) = Nat.min n (List.length l).
Proof. unfold lastn. rewrite length_skipn. lia. Qed.

Lemma deque_append_lastn (l : list string) (x : string) :
  deque_append (lastn maxlen l) x = lastn maxlen (l ++ [x]).
Proof.
  unfold deque_append. rewrite lastn_length. unfold lastn, maxlen.
  rewrite length_app. cbn [List.length].
  destruct (10 <=? Nat.min 10 (List.length l))%nat eqn:E.
  - apply Nat.leb_le in E. rewrite tl_skipn, skipn_app.
    replace (S (List.length l - 10)) with (List.length l + 1 - 10)%nat by lia.
    replace (List.length l + 1 - 10 - List.length l)%nat with O by lia.
    reflexivity.
  - apply Nat.leb_gt in E.
    replace (List.length l - 10)%nat with O by lia.
    replace (List.length l + 1 - 10)%nat with O by lia.
    reflexivity.
Qed.

Lemma scanner_after_scan (ids : Z) (f : list string) :
  exists w,
    scan f (fresh ids) = (Ok tt, w)
    /\ scanner (self w) = lastn maxlen (map Py.strip (since_record_end f)).
Proof.
  destruct (scan_invariant ids
              (fun f w => scanner (self w)
                          = lastn maxlen (map Py.strip (since_record_end f)))
              eq_refl) with (f := f) as (w & E & _ & H).
  - intros g line w0 _ _ H.
    rewrite parse_line_scanner, since_record_end_snoc, H.
    destruct (is_record_end line); [reflexivity|].
    rewrite map_app. apply deque_append_lastn.
  - now exists w.
Qed.

(** X1: after the loop has consumed any stream, the scanner holds exactly
    the last ten (or fewer, when there are fewer) of the lines that follow
    the last record-end line, each one stripped; in particular it never
    holds more than ten entries. *)
Theorem scanner_is_window (ids : Z) (f : list string) :
  fst (scan f (fresh ids)) = Ok tt
  /\ scanner (self (snd (scan f (fresh ids))))
     = lastn maxlen (map Py.strip (since_record_end f))
  /\ (List.length (scanner (self (snd (scan f (fresh ids))))) <= maxlen)%nat.
Proof.
  destruct (scanner_after_scan ids f) as (w & E & H).
  rewrite E. cbn [fst snd]. rewrite H, lastn_length.
  repeat split. lia.
Qed.

(** ** What the retrofit keeps *)

Lemma nth_error_retrofitted (fallback : option string) (l : list Feedback)
  (i : nat) (fb : Feedback) :
  nth_error l i = Some fb ->
  exists a' : option string,
    nth_error (retrofitted fallback l) i = Some (with_ac a' fb)
    /\ (is_set fb = true -> a' = ac fb).
Proof.
  revert i. induction l as [|x l IH]; intros [|i] H; try discriminate.
  - injection H as ->. cbn [retrofitted nth_error]. unfold is_set.
    destruct (ac fb) as [a|] eqn:Ea.
    + exists (Some a). rewrite <- Ea, with_ac_same. now split.
    + destruct l as [|nxt l]; eexists; (split; [reflexivity|discriminate]).
  - cbn [retrofitted nth_error]. now apply IH.
Qed.

(** X8: the retrofit changes nothing but accessions, and only those that
    are unset.  For every object of the list it finds, the list it leaves
    has at the same position the same object with possibly another
    accession, and with the same accession when the object had one; the
    list keeps its length, and scanner, current entry, context size,
    recorded accessions, counter and block flag are as before.  This holds
    also when the retrofit ends with an exception. *)
Theorem retrofit_only_fills_unset (w : World) (i : nat) (fb : Feedback) :
  nth_error (all_feedback (self w)) i = Some fb ->
  (exists a' : option string,
     nth_error (all_feedback (self (snd (retrofit_ACs w)))) i
     = Some (with_ac a' fb)
     /\ (is_set fb = true -> a' = ac fb))
  /\ List.length (all_feedback (self (snd (retrofit_ACs w))))
     = List.length (all_feedback (self w))
  /\ snd (retrofit_ACs w)
     = with_items (all_feedback (self (snd (retrofit_ACs w)))) w.
Proof.
  intros H. rewrite retrofit_ACs_eq. cbn [snd with_items self
    with_all_feedback all_feedback].
  split; [exact (nth_error_retrofitted _ _ _ _ H)|]. split; [|reflexivity].
  clear H.
  generalize (hd None (rev (all_accessions (self w)))). intros a.
  induction (all_feedback (self w)) as [|x l IH]; cbn [retrofitted List.length];
    [reflexivity|now rewrite IH].
Qed.

Lemma retrofit_only_fills_unset_witness :
  let w := snd (scan [ln "## a"; ln "AC   P12345;"; ln "## b"; ln "//"]
                  (fresh 0)) in
  let fb := {| id := 1; feedback := "b "; context := "AC   P12345;";
               ac := Some "P12345"; tag := None |} in
  nth_error (all_feedback (self w)) 1 = Some fb
  /\ is_set fb = true
  /\ exists a' : option string,
       nth_error (all_feedback (self (snd (retrofit_ACs w)))) 1
       = Some (with_ac a' fb)
       /\ (is_set fb = true -> a' = ac fb).
Proof.
  intros w fb. split; [reflexivity|]. split; [reflexivity|].
  exact (proj1 (retrofit_only_fills_unset w 1 fb eq_refl)).
Defined.

Lemma retrofitted_all_set (fallback : option string) (l : list Feedback) :
  forallb is_set (retrofitted fallback l)
  = no_adjacent_unset l
    && (negb (ends_unset l)
        || match fallback with Some _ => true | None => false end).
Proof.
  induction l as [|fb rest IH]; [reflexivity|].
  cbn [retrofitted forallb]. rewrite IH. clear IH.
  destruct rest as [|nxt rest].
  - cbn [no_adjacent_unset ends_unset]. unfold is_set.
    destruct (ac fb) eqn:E; cbn [with_ac ac]; rewrite ?E;
      destruct fallback; reflexivity.
  - change (no_adjacent_unset (fb :: nxt :: rest))
      with ((is_set fb || is_set nxt) && no_adjacent_unset (nxt :: rest)).
    change (ends_unset (fb :: nxt :: rest)) with (ends_unset (nxt :: rest)).
    generalize (no_adjacent_unset (nxt :: rest)) (ends_unset (nxt :: rest)).
    intros b1 b2. unfold is_set.
    destruct (ac fb) eqn:E; cbn [with_ac ac]; rewrite ?E;
      destruct (ac nxt), b1, b2, fallback; reflexivity.
Qed.

(** X9: when the retrofit leaves every object with an accession.  After
    the retrofit all objects have an accession exactly when, in the list it
    found, no two neighbours were both without one and the last object
    either had one or can take the last recorded accession, which must then
    exist and be set. *)
Theorem retrofit_resolves_all_iff (w : World) :
  forallb is_set (all_feedback (self (snd (retrofit_ACs w))))
  = no_adjacent_unset (all_feedback (self w))
    && (negb (ends_unset (all_feedback (self w)))
        || fallback_set (all_accessions (self w))).
Proof.
  rewrite retrofit_ACs_eq.
  cbn [snd with_items self with_all_feedback all_feedback].
  rewrite retrofitted_all_set. unfold fallback_set.
  destruct (rev (all_accessions (self w))) as [|[a|] accs]; reflexivity.
Qed.

Lemma retrofitted_noop (fallback : option string) (l : list Feedback) :
  forallb is_set l = true ->
  retrofitted fallback l = l /\ ends_unset l = false.
Proof.
  induction l as [|fb rest IH]; [now split|].
  cbn [forallb]. intros H. apply andb_true_iff in H as [Hfb Hrest].
  destruct (IH Hrest) as [IH1 IH2].
  cbn [retrofitted ends_unset]. rewrite IH1. unfold is_set in Hfb.
  destruct (ac fb); [|discriminate].
  split; [reflexivity|]. destruct rest; [reflexivity|exact IH2].
Qed.

(** X10: when every object already has an accession (every comment of the
    file stands behind the AC line of its entry), the retrofit ends
    normally and leaves the whole state as it found it, whether or not any
    record end was seen. *)
Theorem retrofit_noop_when_all_set (w : World) :
  forallb is_set (all_feedback (self w)) = true ->
  retrofit_ACs w = (Ok tt, w).
Proof.
  intros H. rewrite retrofit_ACs_eq.
  destruct (retrofitted_noop (hd None (rev (all_accessions (self w)))) _ H)
    as [-> E].
  rewrite with_items_same. unfold retrofit_outcome. rewrite E.
  destruct (rev (all_accessions (self w))); reflexivity.
Qed.

Lemma retrofit_noop_when_all_set_witness :
  let w := snd (scan [ln "ID foo"; ln "AC   P12345;"; ln "## a"; ln "DE x";
                      ln "## b"] (fresh 0)) in
  forallb is_set (all_feedback (self w)) = true
  /\ all_accessions (self w) = []
  /\ retrofit_ACs w = (Ok tt, w).
Proof.
  intros w. split; [reflexivity|]. split; [reflexivity|].
  apply (retrofit_noop_when_all_set w). reflexivity.
Defined.

(** ** The object that a block opens *)

Lemma context_slice_lastn (r : Report) :
  0 <= current_context r ->
  context_slice r
  = lastn (Z.to_nat (current_context r)) (removelast (scanner r)).
Proof.
  intros H. unfold context_slice, Py.slice, Py.norm_index, lastn.
  rewrite removelast_firstn_len, length_firstn, skipn_firstn_comm.
  set (n := List.length (scanner r)).
  destruct (0 <=? Z.of_nat n - 1 - current_context r) eqn:E1.
  - apply Z.leb_le in E1.
    destruct (Z.ltb_spec (Z.of_nat n - 1 - current_context r) 0); [lia|].
    destruct (Z.ltb_spec (Z.of_nat n - 1) 0); [lia|].
    f_equal; [lia|]. f_equal. lia.
  - apply Z.leb_gt in E1.
    destruct (Z.ltb_spec 0 0); [lia|].
    destruct (Z.ltb_spec (Z.of_nat n - 1) 0).
    + assert (n = O) by lia. destruct (scanner r); [|discriminate].
      rewrite ?skipn_nil, ?firstn_nil. reflexivity.
    + f_equal; [lia|]. f_equal. lia.
Qed.

Lemma removelast_lastn_snoc (l : list string) (x : string) :
  removelast (lastn maxlen (l ++ [x])) = lastn (maxlen - 1) l.
Proof.
  unfold lastn, maxlen. rewrite length_app. cbn [List.length].
  rewrite skipn_app.
  replace (List.length l + 1 - 10 - List.length l)%nat with O by lia.
  cbn [skipn]. rewrite removelast_last. f_equal. lia.
Qed.

Lemma lastn_lastn {A : Type} (c m : nat) (l : list A) :
  (c <= m)%nat -> lastn c (lastn m l) = lastn c l.
Proof.
  intros H. unfold lastn. rewrite length_skipn, skipn_skipn. f_equal. lia.
Qed.

Lemma parse_line_extends (line : string) (w : World) :
  exists ext,
    map without_text (all_feedback (self (snd (parse_line line w))))
    = (map without_text (all_feedback (self w)) ++ ext)%list.
Proof.
  branches line w C; cbn [snd self with_all_feedback all_feedback];
    first
      [ exists []; rewrite app_nil_r; reflexivity
      | exists []; rewrite app_nil_r;
        destruct (current_entry (self w)); reflexivity
      | exists []; cbn [pushed with_scanner all_feedback]; rewrite E;
        reflexivity
      | exists []; rewrite app_nil_r, map_alter_absorb by reflexivity;
        rewrite E; reflexivity
      | eexists; rewrite map_app; reflexivity ].
Qed.

Lemma for_each_extends (l : list string) (w : World) :
  exists ext,
    map without_text
      (all_feedback (self (snd (for_each l parse_line w))))
    = (map without_text (all_feedback (self w)) ++ ext)%list.
Proof.
  apply (for_each_preserves
           (fun w' => exists ext,
              map without_text (all_feedback (self w'))
              = (map without_text (all_feedback (self w)) ++ ext)%list)).
  - intros line w1 [ext1 E1].
    destruct (parse_line_extends line w1) as [ext2 E2].
    exists (ext1 ++ ext2)%list. now rewrite E2, E1, app_assoc.
  - exists []. now rewrite app_nil_r.
Qed.

(** The object opened at a marker line, as the run leaves it: all but its
    text and its accession are as at the opening, and the accession too
    when it was set. *)
Lemma opened_item_final (ids : Z) (before : list string) (line : string)
  (after : list string) (w0 : World) :
  scan before (fresh ids) = (Ok tt, w0) ->
  classify line = Marker -> fb_block w0 = false ->
  exists (fb : Feedback) (a' : option string),
    nth_error
      (all_feedback
         (self (snd (parse (before ++ line :: after) (fresh ids)))))
      (List.length (all_feedback (self w0))) = Some fb
    /\ without_text fb = with_ac a' (without_text (opened line w0))
    /\ (is_set (opened line w0) = true -> a' = ac (opened line w0)).
Proof.
  intros E C B.
  destruct (parse_after_scan (before ++ line :: after) ids)
    as (w2 & E2 & _ & ->).
  rewrite scan_fresh in E, E2.
  rewrite for_each_app, E in E2. cbn [for_each] in E2. unfold bind in E2.
  rewrite (parse_line_Marker_open line w0 C B) in E2.
  set (w1 := {| Feedback_ids := Feedback_ids w0 + 1;
                self := with_all_feedback
                          (all_feedback (self w0) ++ [opened line w0])
                          (with_current_context (requested line 1)
                             (pushed line (self w0)));
                fb_block := true |}) in E2.
  destruct (for_each_extends after w1) as [ext X]. rewrite E2 in X.
  cbn [snd] in X.
  assert (N : nth_error (map without_text (all_feedback (self w2)))
                (List.length (all_feedback (self w0)))
              = Some (without_text (opened line w0))).
  { rewrite X. unfold w1. cbn [self with_all_feedback all_feedback].
    rewrite map_app, <- app_assoc.
    rewrite <- (length_map without_text (all_feedback (self w0))).
    apply nth_error_middle. }
  rewrite nth_error_map in N.
  destruct (nth_error (all_feedback (self w2))
              (List.length (all_feedback (self w0)))) as [fb2|] eqn:N2;
    [|discriminate].
  assert (N' : without_text fb2 = without_text (opened line w0))
    by (cbn [option_map] in N; congruence).
  clear N.
  destruct (nth_error_retrofitted
              (hd None (rev (all_accessions (self w2)))) _ _ _ N2)
    as (a' & R1 & R2).
  exists (with_ac a' fb2), a'. rewrite retrofit_ACs_eq.
  split; [exact R1|]. split.
  - rewrite <- N'. reflexivity.
  - intros S.
    assert (A : ac fb2 = ac (opened line w0))
      by exact (f_equal ac N').
    rewrite <- A. apply R2. unfold is_set in *. now rewrite A.
Qed.

(** X2: the context of an object is exactly the lines that precede its
    block.  When the loop, having consumed [before], meets a marker line
    outside a block, the object it opens stands, at the end of the run, at
    the position it was given, and its context is the join by newlines of
    the last [n] stripped lines that [before] holds behind its last
    record-end line (all of them when there are fewer), where [n] is the
    context size that the marker line leaves, between 0 and 9.  Lines of
    every kind count, and neither the ten-entry scanner nor the later lines
    nor the retrofit take anything away. *)
Theorem context_is_preceding_lines (ids : Z) (before : list string)
  (line : string) (after : list string) :
  let w0 := snd (scan before (fresh ids)) in
  let n := current_context (self (snd (parse_line line w0))) in
  classify line = Marker -> fb_block w0 = false ->
  0 <= n <= 9
  /\ exists fb : Feedback,
       nth_error
         (all_feedback
            (self (snd (parse (before ++ line :: after) (fresh ids)))))
         (List.length (all_feedback (self w0))) = Some fb
       /\ context fb
          = Py.join Py.nl
              (lastn (Z.to_nat n) (map Py.strip (since_record_end before))).
Proof.
  intros w0 n C B.
  destruct (scanner_after_scan ids before) as (w & E & Hs).
  assert (Ew : w0 = w) by (unfold w0; now rewrite E). subst w.
  assert (En : n = requested line 1).
  { unfold n. rewrite parse_line_current_context, C, B. reflexivity. }
  assert (R : 0 <= requested line 1 <= 9) by (apply requested_range; lia).
  split; [lia|].
  destruct (opened_item_final ids before line after w0 E C B)
    as (fb & a' & N & W & _).
  exists fb. split; [exact N|].
  replace (context fb) with (context (without_text fb)) by reflexivity.
  rewrite W. cbn [with_ac context without_text with_feedback opened].
  rewrite context_slice_lastn
    by (cbn [current_context with_current_context]; lia).
  cbn [current_context with_current_context scanner pushed with_scanner].
  rewrite Hs, deque_append_lastn, removelast_lastn_snoc.
  rewrite En, lastn_lastn; [reflexivity|unfold maxlen; lia].
Qed.

Lemma context_is_preceding_lines_witness :
  let before := [ln "ID foo"; ln "//"; ln "  DE bar "; ln "XX"] in
  let line := ln "## #5 note" in
  let after := [ln "AC   P12345;"; ln "//"] in
  let w0 := snd (scan before (fresh 0)) in
  let n := current_context (self (snd (parse_line line w0))) in
  classify line = Marker
  /\ fb_block w0 = false
  /\ 0 <= n <= 9
  /\ exists fb : Feedback,
       nth_error
         (all_feedback
            (self (snd (parse (before ++ line :: after) (fresh 0)))))
         (List.length (all_feedback (self w0))) = Some fb
       /\ context fb
          = Py.join Py.nl
              (lastn (Z.to_nat n) (map Py.strip (since_record_end before))).
Proof.
  intros before line after w0 n.
  split; [reflexivity|]. split; [reflexivity|].
  apply (context_is_preceding_lines 0 before line after); reflexivity.
Defined.

Lemma parse_line_current_entry (line : string) (w : World) :
  current_entry (self (snd (parse_line line w)))
  = match classify line with
    | RecordStart => Some (hd EmptyString (Py.split ";" (Py.drop 5 line)))
    | RecordEnd => None
    | SecondaryId g =>
        match current_entry (self w) with
        | None => Some g
        | Some x => Some x
        end
    | _ => current_entry (self w)
    end.
Proof.
  branches line w C; cbn [snd self]; try reflexivity.
  destruct (current_entry (self w)) eqn:E; [exact E|reflexivity].
Qed.

Lemma for_each_keeps_entry (mid : list string) (w : World) (a : string) :
  forallb keeps_entry mid = true ->
  current_entry (self w) = Some a ->
  current_entry (self (snd (for_each mid parse_line w))) = Some a.
Proof.
  revert w. induction mid as [|line mid IH]; intros w K H; [exact H|].
  cbn [forallb] in K. apply andb_true_iff in K as [K1 K2].
  assert (H1 : current_entry (self (snd (parse_line line w))) = Some a).
  { rewrite parse_line_current_entry. unfold keeps_entry in K1.
    destruct (classify line); try discriminate; try exact H.
    now rewrite H. }
  cbn [for_each]. unfold bind.
  destruct (parse_line line w) as [[[]|e] w1]; cbn [snd] in *.
  - now apply IH.
  - exact H1.
Qed.

(** X12: a comment that stands behind the AC line of its entry carries
    that entry's accession.  If the lines consumed before a block-opening
    marker line end with a record-start line followed only by lines that
    are neither record-start nor record-end lines, then the object opened
    has, at the end of the run, the accession read from that record-start
    line (its characters from column 5 up to the first semicolon): no
    secondary identifier in between, no later line and no retrofit changes
    it. *)
Theorem comment_behind_AC_line_gets_its_accession (ids : Z)
  (pre : list string) (ac_line : string) (mid : list string)
  (line : string) (after : list string) :
  let before := (pre ++ ac_line :: mid)%list in
  let w0 := snd (scan before (fresh ids)) in
  classify ac_line = RecordStart ->
  forallb keeps_entry mid = true ->
  classify line = Marker -> fb_block w0 = false ->
  exists fb : Feedback,
    nth_error
      (all_feedback
         (self (snd (parse (before ++ line :: after) (fresh ids)))))
      (List.length (all_feedback (self w0))) = Some fb
    /\ ac fb = Some (hd EmptyString (Py.split ";" (Py.drop 5 ac_line))).
Proof.
  intros before w0 Cac K C B.
  destruct (scan_ok before ids) as (w & E & _).
  assert (Ew : w0 = w) by (unfold w0; now rewrite E). subst w.
  assert (Hentry : current_entry (self w0)
                   = Some (hd EmptyString (Py.split ";" (Py.drop 5 ac_line)))).
  { unfold w0, before. rewrite scan_fresh, for_each_app.
    destruct (for_each pre parse_line (fresh ids)) as [[[]|e] wp] eqn:Ep.
    - cbn [for_each]. unfold bind.
      rewrite (parse_line_RecordStart ac_line wp Cac).
      apply for_each_keeps_entry; [exact K|reflexivity].
    - exfalso. destruct (scan_ok pre ids) as (w' & E' & _).
      rewrite scan_fresh in E'. congruence. }
  destruct (opened_item_final ids before line after w0 E C B)
    as (fb & a' & N & W & S).
  exists fb. split; [exact N|].
  assert (A : a' = ac (opened line w0)).
  { apply S. unfold is_set. cbn [opened ac]. now rewrite Hentry. }
  replace (ac fb) with (ac (without_text fb)) by reflexivity.
  rewrite W, A. cbn [with_ac ac opened]. exact Hentry.
Qed.

Lemma comment_behind_AC_line_gets_its_accession_witness :
  let pre := [ln "ID foo"] in
  let ac_line := ln "AC   P12345; Q99999;" in
  let mid := [ln "DE bar"; ln "A0A000 other"] in
  let line := ln "## check this" in
  let after := [ln "XX"; ln "//"] in
  let before := (pre ++ ac_line :: mid)%list in
  let w0 := snd (scan before (fresh 0)) in
  classify ac_line = RecordStart
  /\ forallb keeps_entry mid = true
  /\ classify line = Marker
  /\ fb_block w0 = false
  /\ hd EmptyString (Py.split ";" (Py.drop 5 ac_line)) = "P12345"
  /\ exists fb : Feedback,
       nth_error
         (all_feedback
            (self (snd (parse (before ++ line :: after) (fresh 0)))))
         (List.length (all_feedback (self w0))) = Some fb
       /\ ac fb = Some (hd EmptyString (Py.split ";" (Py.drop 5 ac_line))).
Proof.
  intros pre ac_line mid line after before w0.
  repeat (split; [reflexivity|]).
  apply (comment_behind_AC_line_gets_its_accession 0 pre ac_line mid line
           after); reflexivity.
Defined.

(** ** Invariants of a run *)

(** X3: the context size stays between 0 and 9, at every point of the loop
    (after any prefix of the stream) and at the end of the run. *)
Theorem current_context_in_range (ids : Z) (f : list string) :
  0 <= current_context (self (snd (scan f (fresh ids)))) <= 9
  /\ 0 <= current_context (self (snd (parse f (fresh ids)))) <= 9.
Proof.
  assert (S : 0 <= current_context (self (snd (scan f (fresh ids)))) <= 9).
  { rewrite scan_fresh.
    apply (for_each_preserves
             (fun w => 0 <= current_context (self w) <= 9)).
    - intros line w H. rewrite parse_line_current_context.
      destruct (classify line); try exact H; [|lia].
      destruct (fb_block w); [exact H|apply requested_range; lia].
    - cbn. lia. }
  split; [exact S|].
  destruct (parse_after_scan f ids) as (w & E & _ & ->).
  rewrite E in S. rewrite retrofit_ACs_eq. exact S.
Qed.

Lemma filter_snoc {A : Type} (p : A -> bool) (l : list A) (x : A) :
  filter p (l ++ [x]) = (filter p l ++ if p x then [x] else [])%list.
Proof. rewrite filter_app. cbn [filter]. now destruct (p x). Qed.

(** X5: one entry of [all_accessions] per record end.  After the loop, and
    after the whole run, [all_accessions] has as many entries as the stream
    has record-end lines, whether or not the records had an accession. *)
Theorem one_accession_per_record_end (ids : Z) (f : list string) :
  List.length (all_accessions (self (snd (scan f (fresh ids)))))
  = List.length (filter is_record_end f)
  /\ all_accessions (self (snd (parse f (fresh ids))))
     = all_accessions (self (snd (scan f (fresh ids)))).
Proof.
  destruct (scan_invariant ids
              (fun f w => List.length (all_accessions (self w))
                          = List.length (filter is_record_end f))
              eq_refl) with (f := f) as (w & E & _ & H).
  - intros g line w0 _ _ H.
    rewrite parse_line_all_accessions, filter_snoc.
    destruct (is_record_end line); rewrite !length_app; cbn [List.length];
      lia.
  - rewrite (parse_scan f _ w E), E, retrofit_ACs_eq. split; [exact H|].
    reflexivity.
Qed.

Lemma parse_line_fb_block (line : string) (w : World) :
  fb_block (snd (parse_line line w))
  = match classify line with
    | RecordStart | RecordEnd | Other => false
    | Marker => true
    | LogfileAC | SecondaryId _ => fb_block w
    end.
Proof. branches line w C; reflexivity. Qed.

Lemma parse_line_count (line : string) (w : World) :
  List.length (all_feedback (self (snd (parse_line line w))))
  = ((if is_marker line && negb (fb_block w) then 1 else 0)
     + List.length (all_feedback (self w)))%nat.
Proof.
  unfold is_marker.
  branches line w C; cbn [snd self with_all_feedback all_feedback pushed
                          with_scanner with_current_entry andb negb];
    rewrite ?E, ?alter_length, ?length_app; cbn [List.length];
    try reflexivity; try lia.
  destruct (current_entry (self w)); reflexivity.
Qed.

(** X13: the block flag and the number of objects after one line, from any
    state.  Record-start, record-end and other lines leave the flag false,
    a marker line leaves it true, and an "AC:" line or a secondary
    identifier line leaves it as it was; the number of objects grows, by
    one, exactly at a marker line met while the flag is false. *)
Theorem block_flag_after_line (line : string) (w : World) :
  fb_block (snd (parse_line line w))
  = match classify line with
    | RecordStart | RecordEnd | Other => false
    | Marker => true
    | LogfileAC | SecondaryId _ => fb_block w
    end
  /\ List.length (all_feedback (self (snd (parse_line line w))))
     = ((if is_marker line && negb (fb_block w) then 1 else 0)
        + List.length (all_feedback (self w)))%nat.
Proof. split; [apply parse_line_fb_block|apply parse_line_count]. Qed.

Lemma for_each_count (f : list string) (w : World) :
  block_open_ok w ->
  List.length (all_feedback (self (snd (for_each f parse_line w))))
  = (count_blocks (fb_block w) f + List.length (all_feedback (self w)))%nat.
Proof.
  revert w. induction f as [|line f IH]; intros w Hw; [reflexivity|].
  destruct (parse_line_ok line w Hw) as (w1 & E1 & H1).
  cbn [for_each count_blocks]. unfold bind. rewrite E1.
  rewrite (IH w1 H1).
  replace w1 with (snd (parse_line line w)) by now rewrite E1.
  rewrite parse_line_fb_block, parse_line_count. unfold is_marker.
  destruct (classify line); cbn [andb]; try lia.
  destruct (fb_block w); cbn [negb]; lia.
Qed.

Lemma count_blocks_le (b : bool) (f : list string) :
  (count_blocks b f <= List.length (filter is_marker f))%nat.
Proof.
  revert b. induction f as [|line f IH]; intros b; [reflexivity|].
  cbn [count_blocks filter]. unfold is_marker at 1.
  destruct (classify line); try apply IH.
  cbn [List.length]. specialize (IH true). destruct b; lia.
Qed.

(** X11: one object per block.  The number of objects that a run leaves is
    the number of blocks of the stream, a block being a maximal run of
    marker lines in which "AC:" lines and secondary identifier lines may be
    interspersed; the counter of the class ends that many above its start.
    There are at most as many blocks as marker lines, so a stream without
    marker line leaves no object. *)
Theorem one_object_per_block (ids : Z) (f : list string) :
  List.length (all_feedback (self (snd (parse f (fresh ids)))))
  = count_blocks false f
  /\ Feedback_ids (snd (parse f (fresh ids)))
     = ids + Z.of_nat (count_blocks false f)
  /\ (count_blocks false f <= List.length (filter is_marker f))%nat.
Proof.
  assert (L : List.length (all_feedback (self (snd (parse f (fresh ids)))))
              = count_blocks false f).
  { destruct (parse_after_scan f ids) as (w & E & _ & ->).
    rewrite retrofit_ACs_eq.
    cbn [snd with_items self with_all_feedback all_feedback].
    replace (List.length (retrofitted _ (all_feedback (self w))))
      with (List.length (all_feedback (self w))).
    - rewrite scan_fresh in E.
      replace w with (snd (for_each f parse_line (fresh ids)))
        by now rewrite E.
      rewrite for_each_count by (intros H; discriminate).
      cbn. lia.
    - generalize (hd None (rev (all_accessions (self w)))). intros a.
      induction (all_feedback (self w)) as [|x l IH];
        cbn [retrofitted List.length]; [reflexivity|now rewrite <- IH]. }
  split; [exact L|]. split.
  - destruct (parse_ids f ids) as [H _]. now rewrite H, L.
  - apply count_blocks_le.
Qed.

(** ** The text of a block *)

Lemma append_empty_r (s : string) : s ++ "" = s.
Proof. induction s as [|c s IH]; simpl; [reflexivity|now rewrite IH]. Qed.

Lemma append_assoc' (a b c : string) : (a ++ b) ++ c = a ++ b ++ c.
Proof. induction a as [|x a IH]; simpl; [reflexivity|now rewrite IH]. Qed.

Lemma block_text_cons (m : string) (ms : list string) :
  block_text (m :: ms) = written m ++ block_text ms.
Proof.
  unfold block_text. cbn [map String.concat].
  destruct (map written ms); [now rewrite append_empty_r|reflexivity].
Qed.

Lemma block_continues (ms : list string) (w : World) (l : list Feedback)
  (fb : Feedback) :
  all_feedback (self w) = (l ++ [fb])%list -> fb_block w = true ->
  forallb is_marker ms = true ->
  fst (for_each ms parse_line w) = Ok tt
  /\ all_feedback (self (snd (for_each ms parse_line w)))
     = (l ++ [with_feedback (feedback fb ++ block_text ms) fb])%list
  /\ fb_block (snd (for_each ms parse_line w)) = true
  /\ Feedback_ids (snd (for_each ms parse_line w)) = Feedback_ids w.
Proof.
  revert w fb. induction ms as [|m ms IH]; intros w fb E B H.
  - cbn [for_each ret fst snd]. unfold block_text. cbn [map String.concat].
    rewrite append_empty_r, E. repeat split; trivial. now destruct fb.
  - cbn [forallb] in H. apply andb_true_iff in H as [Hm Hms].
    assert (C : classify m = Marker).
    { unfold is_marker in Hm. destruct (classify m); try discriminate.
      reflexivity. }
    cbn [for_each]. unfold bind.
    rewrite (parse_line_Marker_cont m w C B)
      by (rewrite E; now destruct l).
    rewrite E, length_app. cbn [List.length].
    replace (List.length l + 1 - 1)%nat with (List.length l) by lia.
    rewrite alter_app_last.
    match goal with
    | |- context [for_each ms parse_line ?w1] =>
        destruct (IH w1 (with_feedback (feedback fb ++ written m) fb)
                    eq_refl eq_refl Hms) as (I1 & I2 & I3 & I4)
    end.
    rewrite I1, I2, I3, I4, block_text_cons.
    cbn [feedback with_feedback Feedback_ids]. rewrite append_assoc'.
    repeat split.
Qed.

(** X4: a block of marker lines makes one object.  From any state outside
    a block, a marker line followed directly by any number of marker lines
    is processed without exception and adds exactly one object, behind the
    existing ones, which stay as they are: its number is the value of the
    counter, which goes up by one; its accession is the current entry and
    its context the one captured at the first line; its text is what the
    lines write one after the other, each line without its first two
    characters, stripped and followed by one blank. *)
Theorem block_makes_one_object (m : string) (ms : list string)
  (w : World) :
  fb_block w = false -> classify m = Marker ->
  forallb is_marker ms = true ->
  fst (for_each (m :: ms) parse_line w) = Ok tt
  /\ all_feedback (self (snd (for_each (m :: ms) parse_line w)))
     = (all_feedback (self w)
        ++ [with_feedback (block_text (m :: ms)) (opened m w)])%list
  /\ fb_block (snd (for_each (m :: ms) parse_line w)) = true
  /\ Feedback_ids (snd (for_each (m :: ms) parse_line w))
     = Feedback_ids w + 1.
Proof.
  intros B C H. cbn [for_each]. unfold bind.
  rewrite (parse_line_Marker_open m w C B).
  match goal with
  | |- context [for_each ms parse_line ?w1] =>
      destruct (block_continues ms w1 (all_feedback (self w)) (opened m w)
                  eq_refl eq_refl H) as (I1 & I2 & I3 & I4)
  end.
  rewrite I1, I2, I3, I4, block_text_cons. repeat split.
Qed.

Lemma block_makes_one_object_witness :
  let w := snd (scan [ln "ID foo"; ln "AC   P12345;"] (fresh 0)) in
  let m := ln "## #1 first line" in
  let ms := [ln "##   second line  "; ln "##third"] in
  fb_block w = false
  /\ classify m = Marker
  /\ forallb is_marker ms = true
  /\ block_text (m :: ms) = "#1 first line second line third "
  /\ all_feedback (self (snd (for_each (m :: ms) parse_line w)))
     = (all_feedback (self w)
        ++ [with_feedback (block_text (m :: ms)) (opened m w)])%list.
Proof.
  intros w m ms. repeat (split; [reflexivity|]).
  apply (block_makes_one_object m ms w); reflexivity.
Defined.

(** ** The branch a line takes, and the accession of a record-start line *)

Lemma split_hd_token (a rest : string) :
  semicolon_free a = true ->
  hd EmptyString (Py.split ";" (a ++ String ";" rest)) = a
  /\ hd EmptyString (Py.split ";" a) = a.
Proof.
  induction a as [|c a IH]; intros H.
  - split; reflexivity.
  - cbn [semicolon_free] in H. apply andb_true_iff in H as [Hc Ha].
    apply negb_true_iff in Hc. destruct (IH Ha) as [I1 I2].
    cbn [String.append Py.split]. rewrite Hc.
    destruct (split_nonempty ";" (a ++ String ";" rest)) as (h & t & E).
    destruct (split_nonempty ";" a) as (h' & t' & E').
    rewrite E in *. rewrite E' in *. cbn [hd] in *. now subst.
Qed.

(** X6: what a record-start line leaves as current entry.  A line that
    starts with "AC " is processed without exception, closes the block and
    replaces whatever the current entry was.  The new entry is read from
    column 5 on: when the rest of the line holds a semicolon, the entry is
    the text before the first semicolon; when it holds none, the entry is
    the whole rest of the line, line end included; when the line has no
    more than five characters, the entry is the empty string. *)
Theorem record_start_sets_entry (c1 c2 : ascii) (a rest : string)
  (w : World) :
  semicolon_free a = true ->
  (let line := "AC " ++ String c1 (String c2 (a ++ String ";" rest)) in
   parse_line line w = (Ok tt, snd (parse_line line w))
   /\ current_entry (self (snd (parse_line line w))) = Some a
   /\ fb_block (snd (parse_line line w)) = false)
  /\ (let line := "AC " ++ String c1 (String c2 a) in
      parse_line line w = (Ok tt, snd (parse_line line w))
      /\ current_entry (self (snd (parse_line line w))) = Some a
      /\ fb_block (snd (parse_line line w)) = false)
  /\ current_entry (self (snd (parse_line "AC " w))) = Some EmptyString
  /\ current_entry (self (snd (parse_line ("AC " ++ String c1 "") w)))
     = Some EmptyString.
Proof.
  intros H. destruct (split_hd_token a rest H) as [S1 S2].
  assert (G : forall line, Py.startswith line "AC " = true ->
              parse_line line w = (Ok tt, snd (parse_line line w))
              /\ current_entry (self (snd (parse_line line w)))
                 = Some (hd EmptyString (Py.split ";" (Py.drop 5 line)))
              /\ fb_block (snd (parse_line line w)) = false).
  { intros line S.
    assert (C : classify line = RecordStart)
      by (unfold classify; now rewrite S).
    rewrite (parse_line_RecordStart line w C). repeat split. }
  split; [|split; [|split]].
  - intros line. destruct (G line eq_refl) as (G1 & G2 & G3).
    repeat split; trivial. rewrite G2. unfold line.
    cbn [String.append Py.drop]. now rewrite S1.
  - intros line. destruct (G line eq_refl) as (G1 & G2 & G3).
    repeat split; trivial. rewrite G2. unfold line.
    cbn [String.append Py.drop]. now rewrite S2.
  - destruct (G "AC " eq_refl) as (_ & G2 & _). rewrite G2. reflexivity.
  - destruct (G ("AC " ++ String c1 "") eq_refl) as (_ & G2 & _).
    rewrite G2. reflexivity.
Qed.

Lemma record_start_sets_entry_witness :
  let w := snd (scan [ln "ID foo"; ln "Q00001 earlier"] (fresh 0)) in
  semicolon_free "P12345" = true
  /\ current_entry (self w) = Some "Q00001"
  /\ current_entry
       (self (snd (parse_line (ln "AC   P12345; Q99999;") w)))
     = Some "P12345".
Proof.
  intros w. split; [reflexivity|]. split; [reflexivity|].
  destruct (record_start_sets_entry " " " " "P12345" (ln " Q99999;") w
              eq_refl) as [(_ & E & _) _].
  exact E.
Defined.

Lemma marker_not_accession (r : string) :
  Re.match_here ac_regex (String "#" r) = None
  /\ Re.match_here ac_regex (String "/" r) = None.
Proof.
  rewrite !ac_match_eq.
  destruct r as [|b [|c [|d [|e [|f r]]]]]; split; reflexivity.
Qed.

(** X7: the tests of the branch chain exclude one another, so that each of
    them alone decides the branch: a line takes the record-start branch
    exactly when it starts with "AC ", the logfile branch exactly when it
    starts with "AC:", the secondary-identifier branch exactly when the
    accession pattern matches at its head, the marker branch exactly when
    it starts with "##" and the record-end branch exactly when it starts
    with "//"; it takes the last branch exactly when all five tests
    fail. *)
Theorem branch_tests_are_exclusive (line : string) :
  (classify line = RecordStart <-> Py.startswith line "AC " = true)
  /\ (classify line = LogfileAC <-> Py.startswith line "AC:" = true)
  /\ (forall g, classify line = SecondaryId g
                <-> Re.match_here ac_regex line = Some g)
  /\ (classify line = Marker <-> Py.startswith line "##" = true)
  /\ (classify line = RecordEnd <-> Py.startswith line "//" = true)
  /\ (classify line = Other
      <-> Py.startswith line "AC " = false
          /\ Py.startswith line "AC:" = false
          /\ Re.match_here ac_regex line = None
          /\ Py.startswith line "##" = false
          /\ Py.startswith line "//" = false).
Proof.
  assert (F : forall (s p : string) (c d : ascii) (r : string),
             Py.startswith s (String c (String d r)) = true ->
             exists t, s = String c (String d t)).
  { intros s p c d r H. destruct s as [|x [|y t]]; cbn [Py.startswith] in H;
      rewrite ?andb_false_r in H; try discriminate.
    apply andb_true_iff in H as [Hx H]. apply andb_true_iff in H as [Hy _].
    apply Ascii.eqb_eq in Hx, Hy. subst. now exists t. }
  split; [|split; [|split; [|split; [|split]]]].
  - unfold classify. split.
    + destruct (Py.startswith line "AC "); [reflexivity|].
      destruct (Py.startswith line "AC:"); [discriminate|].
      destruct (Re.match_here ac_regex line); [discriminate|].
      destruct (Py.startswith line "##"); [discriminate|].
      destruct (Py.startswith line "//"); discriminate.
    + now intros ->.
  - split; [|apply startswith_AC_colon].
    unfold classify.
    destruct (Py.startswith line "AC "); [discriminate|].
    destruct (Py.startswith line "AC:"); [reflexivity|].
    destruct (Re.match_here ac_regex line); [discriminate|].
    destruct (Py.startswith line "##"); [discriminate|].
    destruct (Py.startswith line "//"); discriminate.
  - intros g. apply classify_SecondaryId_iff.
  - split.
    + unfold classify.
      destruct (Py.startswith line "AC "); [discriminate|].
      destruct (Py.startswith line "AC:"); [discriminate|].
      destruct (Re.match_here ac_regex line); [discriminate|].
      destruct (Py.startswith line "##"); [reflexivity|].
      destruct (Py.startswith line "//"); discriminate.
    + intros H. destruct (F _ EmptyString _ _ _ H) as [t ->].
      unfold classify.
      rewrite (proj1 (marker_not_accession (String "#" t))). reflexivity.
  - split.
    + unfold classify.
      destruct (Py.startswith line "AC "); [discriminate|].
      destruct (Py.startswith line "AC:"); [discriminate|].
      destruct (Re.match_here ac_regex line); [discriminate|].
      destruct (Py.startswith line "##"); [discriminate|].
      destruct (Py.startswith line "//"); [reflexivity|discriminate].
    + intros H. destruct (F _ EmptyString _ _ _ H) as [t ->].
      unfold classify.
      rewrite (proj2 (marker_not_accession (String "/" t))). reflexivity.
  - unfold classify. split.
    + destruct (Py.startswith line "AC "); [discriminate|].
      destruct (Py.startswith line "AC:"); [discriminate|].
      destruct (Re.match_here ac_regex line); [discriminate|].
      destruct (Py.startswith line "##"); [discriminate|].
      destruct (Py.startswith line "//"); [discriminate|].
      now repeat split.
    + intros (-> & -> & -> & -> & ->). reflexivity.
Qed.

(** ** The two helpers of the marker branch, from any state *)

Lemma directive_not_free (pre : string) (d : ascii) (rest : string) :
  is_digit d = true ->
  directive_free (pre ++ String "#" (String d rest)) = false.
Proof.
  intros Hd. induction pre as [|c pre IH].
  - cbn [String.append directive_free starts_with_digit].
    now rewrite Ascii.eqb_refl, Hd.
  - cbn [String.append directive_free]. rewrite IH. apply andb_false_r.
Qed.

(** X15: [__check_for_context] never raises and touches only the context
    size.  On any string and from any state it ends normally; when the
    string has no ['#'] followed by a digit the state is unchanged, and
    otherwise only [current_context] is replaced, by a value between 0 and
    9: the index into the match and the conversion to an integer cannot
    fail. *)
Theorem check_for_context_total (aString : string) (w : World) :
  exists v : Z,
    check_for_context aString w
    = (Ok tt,
       {| Feedback_ids := Feedback_ids w;
          self := with_current_context v (self w);
          fb_block := fb_block w |})
    /\ ((directive_free aString = true /\ v = current_context (self w))
        \/ (directive_free aString = false /\ 0 <= v <= 9)).
Proof.
  exists (requested aString (current_context (self w))).
  split; [apply check_for_context_eq|].
  destruct (first_directive aString)
    as [F | (pre & d & rest & -> & Hpre & Hd)].
  - left. split; [exact F|now apply requested_none].
  - right. split; [now apply directive_not_free|].
    rewrite requested_first by assumption.
    destruct (starts_with_digit rest); [lia|now apply digit_value_range].
Qed.

(** X14: what [__extract_context] returns.  From any state with a
    non-negative context size [n] it ends normally, leaves the state as it
    is, and returns the join by newlines of the last [n] entries of the
    scanner without its newest entry, or of all of them when there are
    fewer; on an empty scanner that is the empty string. *)
Theorem extract_context_window_tail (w : World) :
  0 <= current_context (self w) ->
  extract_context w
  = (Ok (Py.join Py.nl
           (lastn (Z.to_nat (current_context (self w)))
              (removelast (scanner (self w))))),
     w)
  /\ List.length
       (lastn (Z.to_nat (current_context (self w)))
          (removelast (scanner (self w))))
     = Nat.min (Z.to_nat (current_context (self w)))
         (List.length (scanner (self w)) - 1).
Proof.
  intros H. split.
  - unfold extract_context. run_monad. now rewrite context_slice_lastn.
  - rewrite lastn_length, removelast_firstn_len, length_firstn. lia.
Qed.

Lemma extract_context_window_tail_witness :
  let w := snd (scan [ln "ID foo"; ln "DE bar"; ln "XX"; ln "## #2 note"]
                  (fresh 0)) in
  0 <= current_context (self w)
  /\ fst (extract_context w) = Ok (Py.join Py.nl ["DE bar"; "XX"]).
Proof.
  intros w.
  assert (E : current_context (self w) = 2) by reflexivity.
  assert (H : 0 <= current_context (self w)) by (rewrite E; lia).
  split; [exact H|].
  rewrite (proj1 (extract_context_window_tail w H)). reflexivity.
Defined.
